(** * CSIKit: the Intel IWL5300 beamforming reader ([read_bfee.py])

    A shallow embedding of [IWLBeamformReader] (source file
    [CSIKit/reader/readers/read_bfee.py]) and the properties of its record
    scanner, CSI matrix decoder and scaling step.

    Conventions of the embedding:
    - Python integers are [Z]; a [bytes] object is a [list byte];
    - Python and NumPy floats are IEEE binary64, here Rocq's primitive
      [float]; a complex array cell is a pair (real part, imaginary part);
    - a NumPy array of shape [(30, n_rx, n_tx)] is a nested list, read with
      stdpp's lookup and written with stdpp's insert after the bounds checks
      NumPy performs (an [IndexError] is an explicit result);
    - exceptions are the [Raise] results of a small error monad. *)

From Stdlib Require Import ZArith Lia List Bool Floats Uint63.
From Stdlib.Strings Require Import Byte.
From stdpp Require Import base list.

Set Warnings "-inexact-float".
Local Open Scope Z_scope.

(** ** Exceptions and loops *)

Inductive exn : Type :=
| StructError   (* struct.error: the buffer has not the size of the format *)
| IndexError.   (* list or array index out of range *)

Inductive result (A : Type) : Type :=
| Ok (a : A)
| Raise (e : exn).
Arguments Ok {A} a.
Arguments Raise {A} e.

Definition bind {A B : Type} (r : result A) (f : A -> result B) : result B :=
  match r with
  | Ok a => f a
  | Raise e => Raise e
  end.

Notation "'do' x <- r ; k" := (bind r (fun x => k))
  (at level 10, x name, r at level 100, k at level 200).

(** What one pass through the body of a [for] loop asks for. *)
Inductive ctl (S : Type) : Type :=
| Next (s : S)      (* go on with the next element *)
| Break (s : S)     (* [break] *)
| Throw (e : exn).  (* an exception leaves the loop *)
Arguments Next {S} s.
Arguments Break {S} s.
Arguments Throw {S} e.

(** [for x in xs: body], with [break]. *)
Fixpoint for_in {S : Type} (xs : list nat) (body : nat -> S -> ctl S) (s : S)
  : result S :=
  match xs with
  | [] => Ok s
  | x :: xs' =>
      match body x s with
      | Next s' => for_in xs' body s'
      | Break s' => Ok s'
      | Throw e => Raise e
      end
  end.

(** A nested loop as the body of the enclosing one: it never breaks the
    enclosing loop, and its exceptions pass through. *)
Definition nested {S : Type} (r : result S) : ctl S :=
  match r with
  | Ok s => Next s
  | Raise e => Throw e
  end.

(** [range(n)] *)
Definition range (n : Z) : list nat := seq 0 (Z.to_nat n).

(** ** Bytes and [struct] *)

Definition b2z (b : byte) : Z := Z.of_N (Byte.to_N b).

(** [data\[n\]] for [n >= 0]: the byte as an integer, or [IndexError]. *)
Definition byte_at (data : list byte) (n : Z) : result Z :=
  match data !! Z.to_nat n with
  | Some b => Ok (b2z b)
  | None => Raise IndexError
  end.

(** [data\[a:b\]] for [0 <= a]: Python clamps a slice to the buffer and gives
    the empty slice when [b <= a]. *)
Definition slice (data : list byte) (a b : Z) : list byte :=
  take (Z.to_nat (b - a)) (drop (Z.to_nat a) data).

Definition le16 (b0 b1 : byte) : Z := b2z b0 + 256 * b2z b1.
Definition le32 (b0 b1 b2 b3 : byte) : Z :=
  b2z b0 + 256 * b2z b1 + 65536 * b2z b2 + 16777216 * b2z b3.
(** format [b]: a signed byte *)
Definition s8 (b : byte) : Z := if b2z b <? 128 then b2z b else b2z b - 256.

(** [SIZE_STRUCT = struct.Struct(">H").unpack] *)
Definition SIZE_STRUCT (bs : list byte) : result Z :=
  match bs with
  | [hi; lo] => Ok (256 * b2z hi + b2z lo)
  | _ => Raise StructError
  end.

(** [CODE_STRUCT = struct.Struct("B").unpack] *)
Definition CODE_STRUCT (bs : list byte) : result Z :=
  match bs with
  | [c] => Ok (b2z c)
  | _ => Raise StructError
  end.

(** The tuple [HEADER_STRUCT] returns; the source reads it by position:
    [header\[0\]] is [timestamp_low], [header\[3\]] is [n_rx], [header\[4\]] is
    [n_tx], [header\[5..7\]] the three RSSI, [header\[8\]] the noise,
    [header\[9\]] the AGC, [header\[10\]] [antenna_sel], [header\[11\]] the payload
    length. *)
Record header : Type := {
  timestamp_low : Z;   (* L *)
  bfee_count : Z;      (* H *)
  reserved : Z;        (* H *)
  n_rx : Z;            (* B *)
  n_tx : Z;            (* B *)
  rssi_a : Z;          (* B *)
  rssi_b : Z;          (* B *)
  rssi_c : Z;          (* B *)
  noise : Z;           (* b *)
  agc : Z;             (* B *)
  antenna_sel : Z;     (* B *)
  payload_length : Z;  (* H *)
  rate : Z             (* H *)
}.

(** [HEADER_STRUCT = struct.Struct("<LHHBBBBBbBBHH").unpack]: exactly 20
    bytes, little-endian, no padding. *)
Definition HEADER_STRUCT (bs : list byte) : result header :=
  match bs with
  | [t0; t1; t2; t3; c0; c1; r0; r1; nrx; ntx; ra; rb; rc; nz; ag; sel;
     l0; l1; f0; f1] =>
      Ok {| timestamp_low := le32 t0 t1 t2 t3;
            bfee_count := le16 c0 c1;
            reserved := le16 r0 r1;
            n_rx := b2z nrx;
            n_tx := b2z ntx;
            rssi_a := b2z ra;
            rssi_b := b2z rb;
            rssi_c := b2z rc;
            noise := s8 nz;
            agc := b2z ag;
            antenna_sel := b2z sel;
            payload_length := le16 l0 l1;
            rate := le16 f0 f1 |}
  | _ => Raise StructError
  end.

Definition VALID_BEAMFORMING_MEASUREMENT : Z := 187.

(** ** Numbers *)

(** A Python integer taken into float arithmetic. *)
Definition float_of_Z (z : Z) : float :=
  if z <? 0 then PrimFloat.opp (PrimFloat.of_uint63 (Uint63.of_Z (- z)))
  else PrimFloat.of_uint63 (Uint63.of_Z z).

(** [np.int8(x)] of a Python integer: the low 8 bits, two's complement. *)
Definition int8 (x : Z) : Z :=
  let m := x mod 256 in if m <? 128 then m else m - 256.

(** A cell of a complex array. *)
Definition complex : Type := (float * float)%type.

(** [real + imag * 1j] for two [np.int8]. *)
Definition complex_of (real imag : Z) : complex :=
  (float_of_Z real, float_of_Z imag).

(** ** The CSI matrix *)

Abbreviation matrix := (list (list (list complex))).

(** [np.empty((d0, d1, d2), dtype=np.complex)]: a fresh array whose entries
    are not initialised; [mem i j k] is what the allocated memory happens to
    hold. *)
Definition np_empty (mem : nat -> nat -> nat -> complex) (d0 d1 d2 : nat)
  : matrix :=
  map (fun i => map (fun j => map (fun k => mem i j k) (seq 0 d2)) (seq 0 d1))
      (seq 0 d0).

(** [csi\[i\]\[j\]\[k\]] *)
Definition get3 (csi : matrix) (i j k : nat) : option complex :=
  match csi !! i with
  | Some plane =>
      match plane !! j with
      | Some row => row !! k
      | None => None
      end
  | None => None
  end.

(** [csi\[i\]\[j\]\[k\] = v]: NumPy checks each index against its axis and
    raises [IndexError] before anything is written. *)
Definition set3 (csi : matrix) (i j k : nat) (v : complex) : result matrix :=
  match csi !! i with
  | Some plane =>
      match plane !! j with
      | Some row =>
          if (k <? length row)%nat
          then Ok (<[i := <[j := <[k := v]> row]> plane]> csi)
          else Raise IndexError
      | None => Raise IndexError
      end
  | None => Raise IndexError
  end.

(** The statement under [try] and its [except IndexError] handler:
    [csi\[i\]\[perm\[j\]\]\[k\] = v], and [csi\[i\]\[j\]\[k\] = v] when that raised.
    The entries of [perm] are the 2-bit fields of [antenna_sel] or the
    defaults [0, 1, 2]: they are never negative, so [Z.to_nat] loses
    nothing; NumPy's counting from the end for a negative index is not
    modelled. *)
Definition store (csi : matrix) (perm : list Z) (i j k : nat) (v : complex)
  : result matrix :=
  match perm !! j with
  | Some p =>
      match set3 csi i (Z.to_nat p) k v with
      | Ok csi' => Ok csi'
      | Raise _ => set3 csi i j k v
      end
  | None => set3 csi i j k v
  end.

(** The state of the bit-cursor walk: [index] and the array being filled. *)
Record walk : Type := { index : Z; csi_of : matrix }.

(** Body of [for k in range(n_tx)]. *)
Definition k_body (data : list byte) (perm : list Z) (remainder : Z)
    (i j k : nat) (w : walk) : ctl walk :=
  let ind8 := index w / 8 in                      (* floor(index/8) *)
  if ind8 + 2 >=? Z.of_nat (length data) then Break w
  else
    match
      do d0 <- byte_at data ind8;
      do d1 <- byte_at data (1 + ind8);
      do d2 <- byte_at data (2 + ind8);
      let real := Z.lor (Z.shiftr d0 remainder) (Z.shiftl d1 (8 - remainder)) in
      let imag := Z.lor (Z.shiftr d1 remainder) (Z.shiftl d2 (8 - remainder)) in
      let complex_no := complex_of (int8 real) (int8 imag) in
      do csi' <- store (csi_of w) perm i j k complex_no;
      Ok {| index := index w + 16; csi_of := csi' |}
    with
    | Ok w' => Next w'
    | Raise e => Throw e
    end.

(** Body of [for j in range(n_rx)]. *)
Definition j_body (data : list byte) (perm : list Z) (ntx : Z)
    (remainder : Z) (i j : nat) (w : walk) : ctl walk :=
  nested (for_in (range ntx) (k_body data perm remainder i j) w).

(** Body of [for i in range(30)]. *)
Definition i_body (data : list byte) (perm : list Z) (nrx ntx : Z)
    (i : nat) (w : walk) : ctl walk :=
  let w1 := {| index := index w + 3; csi_of := csi_of w |} in
  let remainder := index w1 mod 8 in
  nested (for_in (range nrx) (j_body data perm ntx remainder i) w1).

(** Lines 74 to 101 of [read_bfee]: the array is allocated and filled. The
    antenna counts are bytes of the header (format [B]): they are never
    negative, so [Z.to_nat] loses nothing; for a negative count [np.empty]
    would raise [ValueError], which is not modelled. *)
Definition fill_csi (mem : nat -> nat -> nat -> complex) (hdr : header)
    (data : list byte) (perm : list Z) : result matrix :=
  let csi := np_empty mem 30 (Z.to_nat (n_rx hdr)) (Z.to_nat (n_tx hdr)) in
  do w <- for_in (range 30) (i_body data perm (n_rx hdr) (n_tx hdr))
                 {| index := 0; csi_of := csi |};
  Ok (csi_of w).

(** Lines 187 to 191 of [read_file], and the same lines 129 to 133 of
    [read_bf_entry]: the permutation handed to [read_bfee]. *)
Definition perm_of (n_rx antenna_sel : Z) : list Z :=
  let perm := [0; 1; 2] in
  if foldr Z.add 0 perm =? n_rx                      (* sum(perm) == n_rx *)
  then
    let perm := <[0%nat := Z.land antenna_sel 3]> perm in
    let perm := <[1%nat := Z.land (Z.shiftr antenna_sel 2) 3]> perm in
    let perm := <[2%nat := Z.land (Z.shiftr antenna_sel 4) 3]> perm in
    perm
  else perm.

(** ** Scaling *)

Definition cadd (a b : complex) : complex :=
  ((a.1 + b.1)%float, (a.2 + b.2)%float).
Definition cmul (a b : complex) : complex :=
  ((a.1 * b.1 - a.2 * b.2)%float, (a.1 * b.2 + a.2 * b.1)%float).
Definition conj (a : complex) : complex := (a.1, (- a.2)%float).
(** a complex array cell times a real scalar: NumPy promotes the scalar *)
Definition cscale (a : complex) (x : float) : complex := cmul a (x, 0%float).

Definition map3 (f : complex -> complex) (m : matrix) : matrix :=
  map (map (map f)) m.

(** [np.sum] of a complex array. The source does not fix the order in which
    NumPy adds; here the entries are added in storage order. *)
Definition np_sum (m : matrix) : complex :=
  foldl cadd (0%float, 0%float) (concat (concat m)).

(** [csi_pwr]: the real part of the sum of [csi * conj(csi)]. *)
Definition csi_power (csi : matrix) : float :=
  let csi_sq := map3 (fun c => cmul c (conj c)) csi in
  (np_sum csi_sq).1.

Section Reader.

(** The decibel conversions of [CSIKit.util.matlab], which the reader
    imports: [db_pow x] is [db(x, "pow")]. *)
Variable db_pow : float -> float.
Variable dbinv : float -> float.

(** What the memory [np.empty] hands out holds, for the array allocated
    while record number [n] is read. *)
Variable heap : Z -> nat -> nat -> nat -> complex.

Definition get_total_rss (rssi_a rssi_b rssi_c agc : Z) : float :=
  let rssi_mag := 0%float in
  let rssi_mag :=
    if negb (rssi_a =? 0) then (rssi_mag + dbinv (float_of_Z rssi_a))%float
    else rssi_mag in
  let rssi_mag :=
    if negb (rssi_b =? 0) then (rssi_mag + dbinv (float_of_Z rssi_b))%float
    else rssi_mag in
  let rssi_mag :=
    if negb (rssi_c =? 0) then (rssi_mag + dbinv (float_of_Z rssi_c))%float
    else rssi_mag in
  (db_pow rssi_mag - 44 - float_of_Z agc)%float.

(** [scale]: the RSSI power over the mean CSI power of a subcarrier. *)
Definition scale_of (csi : matrix) (hdr : header) : float :=
  let csi_pwr := csi_power csi in
  let rssi_pwr_db :=
    get_total_rss (rssi_a hdr) (rssi_b hdr) (rssi_c hdr) (agc hdr) in
  let rssi_pwr := dbinv rssi_pwr_db in
  (rssi_pwr / (csi_pwr / 30))%float.

(** [total_noise_pwr]: thermal noise and quantization error. *)
Definition total_noise_pwr_of (scale : float) (hdr : header) : float :=
  let noise_db := if noise hdr =? -127 then -92 else noise hdr in
  let thermal_noise_pwr := dbinv (float_of_Z noise_db) in
  let quant_error_pwr := (scale * float_of_Z (n_rx hdr * n_tx hdr))%float in
  (thermal_noise_pwr + quant_error_pwr)%float.

Definition scale_csi_entry (csi : matrix) (hdr : header) : matrix :=
  let scale := scale_of csi hdr in
  let total_noise_pwr := total_noise_pwr_of scale hdr in
  let ret := map3 (fun c => cscale c (PrimFloat.sqrt (scale / total_noise_pwr))) csi in
  if n_tx hdr =? 2 then map3 (fun c => cscale c (PrimFloat.sqrt 2)) ret
  else if n_tx hdr =? 3
       then map3 (fun c => cscale c (PrimFloat.sqrt (dbinv 4.5))) ret
       else ret.

(** ** [read_bfee] *)

(** [Ok None] is [return None]. *)
Definition read_bfee (mem : nat -> nat -> nat -> complex) (hdr : header)
    (data : list byte) (perm : list Z) (scaled : bool)
  : result (option matrix) :=
  let expected_length := payload_length hdr in
  let actual_length := Z.of_nat (length data) in
  if negb (expected_length =? actual_length) then Ok None
  else
    do csi <- fill_csi mem hdr data perm;
    if scaled then Ok (Some (scale_csi_entry csi hdr)) else Ok (Some csi).

(** ** [read_bf_entry] *)

(** The header is unpacked from [data\[4:25\]] and the payload is
    [data\[25:\]], byte by byte. *)
Definition read_bf_entry (mem : nat -> nat -> nat -> complex)
    (data : list byte) (scaled : bool) : result (option matrix) :=
  do csi_header <- HEADER_STRUCT (slice data 4 25);
  let all_data := drop 25 data in
  let perm := perm_of (n_rx csi_header) (antenna_sel csi_header) in
  read_bfee mem csi_header all_data perm scaled.

(** ** [read_file] *)

(** [IWLCSIFrame(header_block, csi_matrix)] *)
Record frame : Type := { frame_header : header; frame_csi : matrix }.

(** The fields of [CSIData] the scan writes. *)
Record csidata : Type := {
  frames : list frame;
  timestamps : list float;
  expected_frames : Z
}.

(** The local variables of the scan that live across iterations. *)
Record scan : Type := {
  cursor : Z;
  initial_timestamp : float;
  ret_data : csidata
}.

Definition scan_start : scan :=
  {| cursor := 0;
     initial_timestamp := 0;
     ret_data := {| frames := []; timestamps := []; expected_frames := 0 |} |}.

(** [(length - cursor) > 100] *)
Definition scan_guard (data : list byte) (s : scan) : bool :=
  Z.of_nat (length data) - cursor s >? 100.

(** The block under [if code == VALID_BEAMFORMING_MEASUREMENT], entered with
    the cursor already past the three bytes of size and code: it returns the
    initial timestamp and the [CSIData] as it leaves them. *)
Definition valid_block (data : list byte) (scaled : bool) (cur size : Z)
    (init : float) (ret : csidata) : result (float * csidata) :=
  let all_block := slice data cur (cur + size - 1) in
  do header_block <- HEADER_STRUCT (take 20 all_block);
  let data_block := drop 20 all_block in
  let perm := perm_of (n_rx header_block) (antenna_sel header_block) in
  do csi_matrix <- read_bfee (heap (expected_frames ret)) header_block
                             data_block perm scaled;
  match csi_matrix with
  | Some m =>
      let frame := {| frame_header := header_block; frame_csi := m |} in
      let ts := (float_of_Z (timestamp_low header_block) * 10e-7)%float in
      let init' := if PrimFloat.eqb init 0 then ts else init in
      Ok (init',
          {| frames := frames ret ++ [frame];
             timestamps := timestamps ret ++ [(ts - init')%float];
             expected_frames := expected_frames ret |})
  | None => Ok (init, ret)
  end.

(** One pass through the body of the [while] loop. The [print] of the [else]
    branch writes to the console only. *)
Definition scan_body (data : list byte) (scaled : bool) (s : scan)
  : result scan :=
  do size <- SIZE_STRUCT (slice data (cursor s) (cursor s + 2));
  do code <- CODE_STRUCT (slice data (cursor s + 2) (cursor s + 3));
  let cur := cursor s + 3 in
  do ir <- (if code =? VALID_BEAMFORMING_MEASUREMENT
            then valid_block data scaled cur size (initial_timestamp s)
                             (ret_data s)
            else Ok (initial_timestamp s, ret_data s));
  let ret := ir.2 in
  Ok {| cursor := cur + (size - 1);
        initial_timestamp := ir.1;
        ret_data := {| frames := frames ret;
                       timestamps := timestamps ret;
                       expected_frames := expected_frames ret + 1 |} |}.

(** The [while] loop; [None] when the fuel runs out ([read_file_total]
    shows it never does with the fuel [read_file] gives). *)
Fixpoint scan_loop (fuel : nat) (data : list byte) (scaled : bool) (s : scan)
  : option (result csidata) :=
  if scan_guard data s then
    match fuel with
    | O => None
    | S fuel' =>
        match scan_body data scaled s with
        | Ok s' => scan_loop fuel' data scaled s'
        | Raise e => Some (Raise e)
        end
    end
  else Some (Ok (ret_data s)).

(** [read_file], from the bytes of the file on. *)
Definition read_file (data : list byte) (scaled : bool)
  : option (result csidata) :=
  scan_loop (length data) data scaled scan_start.

End Reader.

(** ** The bit-cursor walk in closed form

    These definitions say where the walk of [read_bfee] stands and what it
    reads, as functions of the position [(i, j, k)] in the array. *)

Section Walk.

Variable data : list byte.
Variable perm : list Z.
Variables N M : nat.   (* n_rx and n_tx *)

(** The bit index at which the sample of subcarrier [i], receive antenna
    [j], transmit antenna [k] starts when nothing was cut short: 3 bits for
    each subcarrier begun, 16 bits for each sample before this one. *)
Definition pos (i j k : nat) : Z :=
  3 * (Z.of_nat i + 1)
  + 16 * ((Z.of_nat i * Z.of_nat N + Z.of_nat j) * Z.of_nat M + Z.of_nat k).

(** The negation of the test before [break]: the three bytes the extraction
    reads from bit index [idx] on are inside the payload. *)
Definition in_reach (idx : Z) : bool :=
  idx / 8 + 2 <? Z.of_nat (length data).

(** The byte [payload\[n\]]; 0 outside the payload, where the walk never
    reads. *)
Definition payload (n : Z) : Z :=
  match data !! Z.to_nat n with
  | Some b => b2z b
  | None => 0
  end.

(** Eight bits from bit index [idx] on, taken from two neighbouring bytes
    and read as a signed byte. *)
Definition signed_bits (idx : Z) : Z :=
  let byte_index := idx / 8 in
  let remainder := idx mod 8 in
  int8 (Z.lor (Z.shiftr (payload byte_index) remainder)
              (Z.shiftl (payload (byte_index + 1)) (8 - remainder))).

(** The complex sample that starts at bit index [idx]: the real part in
    the first eight bits, the imaginary part in the next eight. *)
Definition sample_at (idx : Z) : complex :=
  complex_of (signed_bits idx) (signed_bits (idx + 8)).

(** The row antenna [j] is stored in: [perm\[j\]] when that is a row of the
    array, [j] itself when [perm\[j\]] raised. *)
Definition row_of (j : nat) : nat :=
  match perm !! j with
  | Some p => if (Z.to_nat p <? N)%nat then Z.to_nat p else j
  | None => j
  end.

(** Antenna [j] writes cell [(i, r, k)]. *)
Definition writes (i j r k : nat) : bool :=
  (r =? row_of j)%nat && (k <? M)%nat && in_reach (pos i j k).

(** The last antenna among [j0, ..., j0 + cnt - 1] that writes cell
    [(i, r, k)]. *)
Fixpoint last_writer (i r k j0 cnt : nat) : option nat :=
  match cnt with
  | O => None
  | S cnt' =>
      match last_writer i r k (S j0) cnt' with
      | Some j => Some j
      | None => if writes i j0 r k then Some j0 else None
      end
  end.

(** The content of cell [(i, r, k)] after the walk over an array that held
    [mem]. *)
Definition walked (mem : nat -> nat -> nat -> complex) (i r k : nat) : complex :=
  match last_writer i r k 0 N with
  | Some j => sample_at (pos i j k)
  | None => mem i r k
  end.

(** The cursor [idx] of the walk against the closed form [p]: it never runs
    ahead, and it agrees as long as extraction is possible. *)
Definition on_track (p idx : Z) : Prop :=
  0 <= idx /\ idx <= p /\ (in_reach idx = true -> idx = p).

End Walk.

(** The shape [(d0, d1, d2)] of an array. *)
Definition dims (csi : matrix) (d0 d1 d2 : nat) : Prop :=
  length csi = d0 /\
  Forall (fun plane => length plane = d1 /\
                       Forall (fun row : list complex => length row = d2) plane)
         csi.

(** ** The scan, seen from its output *)

(** [timestamp_low = header_block\[0\]*10e-7], the local variable of the scan. *)
Definition seconds (hdr : header) : float :=
  (float_of_Z (timestamp_low hdr) * 10e-7)%float.

(** The initial timestamp after frames with the timestamps [ts] were
    emitted, when it was [init] before. *)
Fixpoint baseline_after (init : float) (ts : list float) : float :=
  match ts with
  | [] => init
  | t :: ts' => baseline_after (if PrimFloat.eqb init 0 then t else init) ts'
  end.

(** The relative timestamps appended for frames with the timestamps [ts]. *)
Fixpoint relative_timestamps (init : float) (ts : list float) : list float :=
  match ts with
  | [] => []
  | t :: ts' =>
      let init' := if PrimFloat.eqb init 0 then t else init in
      (t - init')%float :: relative_timestamps init' ts'
  end.

(** The codes of the records as the scan delimits them from [cur] on. *)
Fixpoint record_codes (fuel : nat) (data : list byte) (cur : Z) : list Z :=
  if Z.of_nat (length data) - cur >? 100 then
    match fuel with
    | O => []
    | S fuel' =>
        match SIZE_STRUCT (slice data cur (cur + 2)),
              CODE_STRUCT (slice data (cur + 2) (cur + 3)) with
        | Ok size, Ok code =>
            code :: record_codes fuel' data (cur + 3 + (size - 1))
        | _, _ => []
        end
    end
  else [].

(** The relative timestamps as the specification words them: a tick of
    100 ns, counted from the first emitted frame. *)
Definition seconds_100ns (hdr : header) : float :=
  (float_of_Z (timestamp_low hdr) * 1e-7)%float.

Definition timestamps_100ns (fs : list frame) : list float :=
  match fs with
  | [] => []
  | f0 :: _ =>
      map (fun f => (seconds_100ns (frame_header f)
                     - seconds_100ns (frame_header f0))%float) fs
  end.

(** The same with the factor of the source, [10e-7]. *)
Definition timestamps_from_first (fs : list frame) : list float :=
  match fs with
  | [] => []
  | f0 :: _ =>
      map (fun f => (seconds (frame_header f)
                     - seconds (frame_header f0))%float) fs
  end.

(** ** Capture files for the examples *)

Definition z2b (z : Z) : byte :=
  match Byte.of_N (Z.to_N (z mod 256)) with
  | Some b => b
  | None => x00
  end.

(** [n] bytes of [z], least significant first. *)
Definition le_bytes (n : nat) (z : Z) : list byte :=
  map (fun i => z2b (Z.shiftr z (8 * Z.of_nat i))) (seq 0 n).

(** The 20 bytes [HEADER_STRUCT] reads [hdr] from. *)
Definition header_bytes (hdr : header) : list byte :=
  le_bytes 4 (timestamp_low hdr) ++ le_bytes 2 (bfee_count hdr)
  ++ le_bytes 2 (reserved hdr)
  ++ [z2b (n_rx hdr); z2b (n_tx hdr); z2b (rssi_a hdr); z2b (rssi_b hdr);
      z2b (rssi_c hdr); z2b (noise hdr); z2b (agc hdr); z2b (antenna_sel hdr)]
  ++ le_bytes 2 (payload_length hdr) ++ le_bytes 2 (rate hdr).

(** A record as [log_to_file] writes it: the size (big-endian, it counts the
    code byte), the code, the header and the payload. *)
Definition record_bytes (code : Z) (hdr : header) (payload : list byte)
  : list byte :=
  let body := header_bytes hdr ++ payload in
  let size := Z.of_nat (length body) + 1 in
  [z2b (Z.shiftr size 8); z2b size; z2b code] ++ body.

(** A header with one antenna pair, the timestamp [ts] and the payload
    length [len]. *)
Definition plain_header (ts len : Z) : header :=
  {| timestamp_low := ts; bfee_count := 0; reserved := 0;
     n_rx := 1; n_tx := 1; rssi_a := 33; rssi_b := 0; rssi_c := 0;
     noise := -127; agc := 40; antenna_sel := 36;
     payload_length := len; rate := 0 |}.

(** A stand-in for the decibel conversions in the closed examples: without
    scaling the scan never calls them, and the example with scaling holds
    for every choice of them. *)
Definition db_stand_in (x : float) : float := x.

(** A memory that holds 1.5 - 2.5j everywhere. *)
Definition stale_heap (_ : Z) (_ _ _ : nat) : complex :=
  (1.5%float, (-2.5)%float).

(** Two frames, at 1000000 and 3000000 ticks, with empty payloads, and 80
    bytes the scan leaves unread. *)
Definition two_frames : list byte :=
  record_bytes 187 (plain_header 1000000 0) []
  ++ record_bytes 187 (plain_header 3000000 0) []
  ++ repeat x00 80.

(** Three frames, the first at tick 0. *)
Definition three_frames : list byte :=
  record_bytes 187 (plain_header 0 0) []
  ++ record_bytes 187 (plain_header 1000000 0) []
  ++ record_bytes 187 (plain_header 3000000 0) []
  ++ repeat x00 80.

(** One record whose header announces 5 payload bytes and has none, then one
    sound record. *)
Definition one_dropped : list byte :=
  record_bytes 187 (plain_header 1000000 5) []
  ++ record_bytes 187 (plain_header 3000000 0) []
  ++ repeat x00 80.

(** A record that announces no receive antenna and two transmit antennas. *)
Definition no_rx_header : header :=
  {| timestamp_low := 5; bfee_count := 0; reserved := 0;
     n_rx := 0; n_tx := 2; rssi_a := 33; rssi_b := 0; rssi_c := 0;
     noise := -127; agc := 40; antenna_sel := 36;
     payload_length := 0; rate := 0 |}.

Definition no_rx_file : list byte :=
  record_bytes 187 no_rx_header [] ++ repeat x00 80.

(** Ten payload bytes for two receive antennas and one transmit antenna:
    enough for the two subcarriers 0 and 1, not for subcarrier 2. *)
Definition short_header : header :=
  {| timestamp_low := 5; bfee_count := 0; reserved := 0;
     n_rx := 2; n_tx := 1; rssi_a := 33; rssi_b := 0; rssi_c := 0;
     noise := -127; agc := 40; antenna_sel := 36;
     payload_length := 10; rate := 0 |}.

Definition short_payload : list byte :=
  map z2b [1; 2; 3; 4; 5; 6; 7; 8; 9; 10].

(** The 2-bit field of [antenna_sel] at bit offset [off]. *)
Definition field2 (antenna_sel off : Z) : Z := (antenna_sel / 2 ^ off) mod 4.

(** The total received signal strength as the specification words it: the
    dB value of the sum of the linear powers of the readings that are not
    zero, minus 44, minus the AGC. *)
Definition total_rss_spec (db_pow dbinv : float -> float)
    (rssi_a rssi_b rssi_c agc : Z) : float :=
  let present := List.filter (fun r => negb (r =? 0)) [rssi_a; rssi_b; rssi_c] in
  let linear := map (fun r => dbinv (float_of_Z r)) present in
  (db_pow (fold_left PrimFloat.add linear 0%float) - 44 - float_of_Z agc)%float.

(** A float that is NaN, and one that is NaN or infinite, read through the
    IEEE specification of the primitive floats. *)
Definition is_NaN (x : float) : Prop := Prim2SF x = S754_nan.
Definition nan_or_inf (x : float) : Prop :=
  Prim2SF x = S754_nan \/ exists s, Prim2SF x = S754_infinity s.
Definition is_zero (x : float) : Prop := exists s, Prim2SF x = S754_zero s.

(** 72 zero bytes: the payload of one antenna pair, 30 subcarriers of 19
    bits each. *)
Definition zero_payload : list byte := repeat x00 72.

(** The raw array of an all-zero payload with one antenna pair. *)
Definition zero_matrix : matrix := repeat [[(0%float, 0%float)]] 30.

(** A record that announces 65535 bytes in a file of 104: header, 81
    payload bytes, and nothing after them. *)
Definition overrun_file : list byte :=
  [xff; xff; xbb] ++ header_bytes (plain_header 7 81) ++ repeat x00 81.

(** A record with the valid code that announces 5 bytes, not enough for a
    header, in a file of 103 bytes. *)
Definition short_record_file : list byte :=
  [x00; x05; xbb] ++ repeat x00 100.

(** One record with the code 0xc1 and 100 bytes the scan leaves unread. *)
Definition invalid_code_file : list byte :=
  [x00; x15; xc1] ++ repeat x00 120.

(** ** A synthetic payload

    The bit packing of the firmware, written as an encoder: the payload is
    one long little-endian bit string; subcarrier [i] opens with a 3-bit
    field (an exponent the reader skips), and the sample of [(i, j, k)]
    follows at bit [pos i j k], eight bits of real part and then eight bits
    of imaginary part, each in two's complement. *)

Section Pack.

Variables N M : nat.
Variable exponent : nat -> Z.
Variable samples : nat -> nat -> nat -> Z * Z.

(** The low [width] bits of [v], placed at bit [off]. *)
Definition field (width v off : Z) : Z := Z.shiftl (v mod 2 ^ width) off.

Definition sample_fields (i j k : nat) : list Z :=
  [field 8 (samples i j k).1 (pos N M i j k);
   field 8 (samples i j k).2 (pos N M i j k + 8)].

Definition subcarrier_fields (i : nat) : list Z :=
  field 3 (exponent i) (pos N M i 0 0 - 3)
  :: flat_map (fun j => flat_map (sample_fields i j) (seq 0 M)) (seq 0 N).

(** The whole payload as one number, bit 0 first. *)
Definition bit_stream : Z :=
  foldr Z.lor 0 (flat_map subcarrier_fields (seq 0 30)).

(** 30 subcarriers of [3 + 16 * N * M] bits, in whole bytes. *)
Definition packed_length : nat :=
  Z.to_nat ((30 * (3 + 16 * (Z.of_nat N * Z.of_nat M)) + 7) / 8).

Definition pack : list byte := le_bytes packed_length bit_stream.

End Pack.

(** A payload packed for one antenna pair: subcarrier [i] carries the
    sample [(i - 15) + (2 * i - 30) j] and the exponent [i mod 8]. *)
Definition ramp_samples (i _ _ : nat) : Z * Z :=
  (Z.of_nat i - 15, 2 * Z.of_nat i - 30).
Definition ramp_exponent (i : nat) : Z := Z.of_nat i mod 8.
Definition ramp_payload : list byte := pack 1 1 ramp_exponent ramp_samples.

(** ** Tactics *)

(** [lia] reads quotients and remainders by constants. *)
Ltac Zify.zify_post_hook ::= Z.div_mod_to_equations.

(** Two closed lists of floats differ: entry [n] of the first one compares
    equal to [v], that of the second one does not. *)
Ltac floats_differ n v :=
  let H := fresh in
  intros H;
  apply (f_equal (fun l : list float =>
                    match l !! n with
                    | Some x => PrimFloat.eqb x v
                    | None => false
                    end)) in H;
  vm_compute in H; discriminate H.

(** Three receive antennas, one transmit antenna, [antenna_sel = 0]: the
    permutation is [0, 0, 0]. *)
Definition same_row_header : header :=
  {| timestamp_low := 5; bfee_count := 0; reserved := 0;
     n_rx := 3; n_tx := 1; rssi_a := 33; rssi_b := 0; rssi_c := 0;
     noise := -127; agc := 40; antenna_sel := 0;
     payload_length := 10; rate := 0 |}.

(** ** Scaling after the scan *)

(** A frame with its array scaled, and a [CSIData] with every frame
    scaled. *)
Definition scale_frame (db_pow dbinv : float -> float) (f : frame) : frame :=
  {| frame_header := frame_header f;
     frame_csi := scale_csi_entry db_pow dbinv (frame_csi f) (frame_header f) |}.

Definition scale_frames (db_pow dbinv : float -> float) (r : csidata)
  : csidata :=
  {| frames := map (scale_frame db_pow dbinv) (frames r);
     timestamps := timestamps r;
     expected_frames := expected_frames r |}.

Definition scale_scan (db_pow dbinv : float -> float) (s : scan) : scan :=
  {| cursor := cursor s;
     initial_timestamp := initial_timestamp s;
     ret_data := scale_frames db_pow dbinv (ret_data s) |}.

(** ** Headers on the wire *)

(** The fields of a header are within the ranges of their formats. *)
Definition header_in_range (hdr : header) : Prop :=
  0 <= timestamp_low hdr < 2 ^ 32
  /\ 0 <= bfee_count hdr < 65536
  /\ 0 <= reserved hdr < 65536
  /\ 0 <= n_rx hdr < 256
  /\ 0 <= n_tx hdr < 256
  /\ 0 <= rssi_a hdr < 256
  /\ 0 <= rssi_b hdr < 256
  /\ 0 <= rssi_c hdr < 256
  /\ -128 <= noise hdr < 128
  /\ 0 <= agc hdr < 256
  /\ 0 <= antenna_sel hdr < 256
  /\ 0 <= payload_length hdr < 65536
  /\ 0 <= rate hdr < 65536.

(** [hdr] with another noise field. *)
Definition with_noise (hdr : header) (n : Z) : header :=
  {| timestamp_low := timestamp_low hdr; bfee_count := bfee_count hdr;
     reserved := reserved hdr; n_rx := n_rx hdr; n_tx := n_tx hdr;
     rssi_a := rssi_a hdr; rssi_b := rssi_b hdr; rssi_c := rssi_c hdr;
     noise := n; agc := agc hdr; antenna_sel := antenna_sel hdr;
     payload_length := payload_length hdr; rate := rate hdr |}.

(** ** Capture files *)

(** The records of a capture file: code, header and payload of each one. *)
Definition wire_record : Type := (Z * header * list byte)%type.

Definition wire_bytes (rec : wire_record) : list byte :=
  record_bytes rec.1.1 rec.1.2 rec.2.

(** A record [record_bytes] can write: fields in range, and a size that
    fits the two bytes of the size field. *)
Definition wire_record_ok (rec : wire_record) : Prop :=
  header_in_range rec.1.2 /\ 0 <= rec.1.1 < 256
  /\ Z.of_nat (length rec.2) + 21 < 65536.

(** The records one after the other, and [tail] after the last one. *)
Definition capture (records : list wire_record) (tail : list byte)
  : list byte :=
  flat_map wire_bytes records ++ tail.

(** The record has the valid code and the payload length it announces. *)
Definition emits (rec : wire_record) : bool :=
  (rec.1.1 =? VALID_BEAMFORMING_MEASUREMENT)
  && (payload_length rec.1.2 =? Z.of_nat (length rec.2)).

(** * Properties *)

(** ** Arrays *)

Lemma np_empty_dims mem d0 d1 d2 : dims (np_empty mem d0 d1 d2) d0 d1 d2.
Proof.
  unfold dims, np_empty. split.
  - by rewrite length_map, length_seq.
  - apply Forall_forall. intros plane Hp.
    apply list_elem_of_In, in_map_iff in Hp as (i & <- & _). split.
    + by rewrite length_map, length_seq.
    + apply Forall_forall. intros row Hr.
      apply list_elem_of_In, in_map_iff in Hr as (j & <- & _).
      by rewrite length_map, length_seq.
Qed.

Lemma lookup_map_seq {A} (f : nat -> A) n i :
  (i < n)%nat -> map f (seq 0 n) !! i = Some (f i).
Proof.
  intros Hi. change (map f (seq 0 n)) with (f <$> seq 0 n).
  by rewrite list_lookup_fmap, lookup_seq_lt.
Qed.

Lemma get3_np_empty mem d0 d1 d2 i j k :
  (i < d0)%nat -> (j < d1)%nat -> (k < d2)%nat ->
  get3 (np_empty mem d0 d1 d2) i j k = Some (mem i j k).
Proof.
  intros Hi Hj Hk. unfold get3, np_empty.
  by rewrite !lookup_map_seq.
Qed.

Lemma dims_lookup csi d0 d1 d2 i j :
  dims csi d0 d1 d2 -> (i < d0)%nat -> (j < d1)%nat ->
  exists plane row,
    csi !! i = Some plane /\ plane !! j = Some row /\
    length plane = d1 /\ length row = d2 /\
    Forall (fun row : list complex => length row = d2) plane.
Proof.
  intros [Hl Hall] Hi Hj.
  destruct (lookup_lt_is_Some_2 csi i) as [plane Hplane]; [lia|].
  destruct (proj1 (Forall_lookup _ _) Hall i plane Hplane) as [Hlp Hrows].
  destruct (lookup_lt_is_Some_2 plane j) as [row Hrow]; [lia|].
  exists plane, row. repeat split; try done.
  exact (proj1 (Forall_lookup _ _) Hrows j row Hrow).
Qed.

(** An assignment inside the array succeeds, keeps the shape and changes
    the one cell. *)
Lemma set3_inside csi d0 d1 d2 i j k v :
  dims csi d0 d1 d2 -> (i < d0)%nat -> (j < d1)%nat -> (k < d2)%nat ->
  exists csi',
    set3 csi i j k v = Ok csi' /\ dims csi' d0 d1 d2 /\
    forall i' j' k',
      get3 csi' i' j' k' =
      if ((i' =? i) && (j' =? j) && (k' =? k))%nat then Some v
      else get3 csi i' j' k'.
Proof.
  intros Hd Hi Hj Hk.
  destruct (dims_lookup _ _ _ _ i j Hd Hi Hj)
    as (plane & row & Hplane & Hrow & Hlp & Hlr & Hrows).
  unfold set3. rewrite Hplane, Hrow.
  destruct (Nat.ltb_spec k (length row)) as [_|?]; [|lia].
  eexists. split; [reflexivity|]. split.
  - destruct Hd as [Hl Hall]. split; [by rewrite length_insert|].
    apply Forall_insert; [done|]. split; [by rewrite length_insert|].
    apply Forall_insert; [done|]. by rewrite length_insert.
  - intros i' j' k'. unfold get3.
    destruct (Nat.eqb_spec i' i) as [->|Hni]; simpl.
    + rewrite list_lookup_insert_eq by (destruct Hd; lia). rewrite Hplane.
      destruct (Nat.eqb_spec j' j) as [->|Hnj]; simpl.
      * rewrite list_lookup_insert_eq by lia. rewrite Hrow.
        destruct (Nat.eqb_spec k' k) as [->|Hnk].
        -- by rewrite list_lookup_insert_eq by lia.
        -- by rewrite list_lookup_insert_ne by done.
      * by rewrite list_lookup_insert_ne by done.
    + by rewrite list_lookup_insert_ne by done.
Qed.

(** An assignment outside the array raises [IndexError]. *)
Lemma set3_outside csi d0 d1 d2 i j k v :
  dims csi d0 d1 d2 -> (i < d0)%nat -> (d1 <= j)%nat ->
  set3 csi i j k v = Raise IndexError.
Proof.
  intros [Hl Hall] Hi Hj. unfold set3.
  destruct (lookup_lt_is_Some_2 csi i) as [plane Hplane]; [lia|].
  rewrite Hplane.
  destruct (proj1 (Forall_lookup _ _) Hall i plane Hplane) as [Hlp _].
  by rewrite (lookup_ge_None_2 plane j) by lia.
Qed.

(** The [try] statement stores in row [row_of j]. *)
Lemma store_row_of csi perm d1 d2 i j k v :
  dims csi 30 d1 d2 -> (i < 30)%nat -> (j < d1)%nat ->
  store csi perm i j k v = set3 csi i (row_of perm d1 j) k v.
Proof.
  intros Hd Hi Hj. unfold store, row_of.
  destruct (perm !! j) as [p|]; [|done].
  destruct (Nat.ltb_spec (Z.to_nat p) d1) as [Hp|Hp].
  - destruct (set3 csi i (Z.to_nat p) k v) eqn:E; [done|].
    destruct (Nat.lt_ge_cases k d2) as [Hk|Hk].
    + destruct (set3_inside csi 30 d1 d2 i (Z.to_nat p) k v) as (? & E' & _);
        try done. congruence.
    + (* both assignments raise *)
      destruct (dims_lookup _ _ _ _ i (Z.to_nat p) Hd Hi Hp)
        as (pl & rw & Hpl & Hrw & _ & Hlr & _).
      destruct (dims_lookup _ _ _ _ i j Hd Hi Hj)
        as (pl' & rw' & Hpl' & Hrw' & _ & Hlr' & _).
      assert (pl' = pl) as -> by congruence.
      unfold set3 in *. rewrite Hpl, Hrw in E. rewrite Hpl, Hrw'.
      destruct (Nat.ltb_spec k (length rw)); [lia|].
      destruct (Nat.ltb_spec k (length rw')); [lia|]. congruence.
  - by rewrite (set3_outside csi 30 d1 d2).
Qed.

(** ** The walk of [read_bfee] *)

Section WalkFacts.

Variable data : list byte.
Variable perm : list Z.
Variables N M : nat.

Lemma in_reach_down idx idx' :
  idx <= idx' -> in_reach data idx' = true -> in_reach data idx = true.
Proof. unfold in_reach. intros H H'. apply Z.ltb_lt in H'. apply Z.ltb_lt. lia. Qed.

Lemma in_reach_up idx idx' :
  idx <= idx' -> in_reach data idx = false -> in_reach data idx' = false.
Proof.
  intros H H'. destruct (in_reach data idx') eqn:E; [|done].
  by rewrite (in_reach_down idx idx') in H'.
Qed.

Lemma row_of_lt j : (j < N)%nat -> (row_of perm N j < N)%nat.
Proof.
  intros Hj. unfold row_of. destruct (perm !! j) as [p|]; [|done].
  by destruct (Nat.ltb_spec (Z.to_nat p) N).
Qed.

Lemma byte_at_payload n :
  0 <= n < Z.of_nat (length data) -> byte_at data n = Ok (payload data n).
Proof.
  intros Hn. unfold byte_at, payload.
  destruct (lookup_lt_is_Some_2 data (Z.to_nat n)) as [b ->]; [lia|done].
Qed.

Lemma k_body_break rem i j k w :
  in_reach data (index w) = false -> k_body data perm rem i j k w = Break w.
Proof.
  unfold in_reach, k_body. intros H. apply Z.ltb_ge in H.
  destruct (Z.geb_spec (index w / 8 + 2) (Z.of_nat (length data))); [done|lia].
Qed.

Lemma k_body_next rem i j k w :
  in_reach data (index w) = true -> 0 <= index w -> rem = index w mod 8 ->
  dims (csi_of w) 30 N M -> (i < 30)%nat -> (j < N)%nat -> (k < M)%nat ->
  exists csi',
    k_body data perm rem i j k w = Next {| index := index w + 16; csi_of := csi' |}
    /\ dims csi' 30 N M
    /\ forall i' r k',
        get3 csi' i' r k' =
        if ((i' =? i) && (r =? row_of perm N j) && (k' =? k))%nat
        then Some (sample_at data (index w))
        else get3 (csi_of w) i' r k'.
Proof.
  intros Hr H0 -> Hd Hi Hj Hk.
  unfold in_reach in Hr. apply Z.ltb_lt in Hr.
  destruct (set3_inside (csi_of w) 30 N M i (row_of perm N j) k
              (sample_at data (index w)))
    as (csi' & Hset & Hd' & Hget); try done; [by apply row_of_lt|].
  exists csi'. split; [|done].
  unfold k_body.
  destruct (Z.geb_spec (index w / 8 + 2) (Z.of_nat (length data))); [lia|].
  rewrite !byte_at_payload by lia. cbn [bind].
  rewrite (store_row_of _ _ N M) by done.
  unfold sample_at, signed_bits in Hset.
  replace ((index w + 8) / 8) with (1 + index w / 8) in Hset by lia.
  replace ((index w + 8) mod 8) with (index w mod 8) in Hset by lia.
  replace (index w / 8 + 1) with (1 + index w / 8) in Hset by lia.
  replace (1 + index w / 8 + 1) with (2 + index w / 8) in Hset by lia.
  by rewrite Hset.
Qed.

Lemma pos_succ_k i j k : pos N M i j (S k) = pos N M i j k + 16.
Proof. unfold pos. lia. Qed.

Lemma pos_next_j i j : pos N M i j M = pos N M i (S j) 0.
Proof. unfold pos. lia. Qed.

Lemma pos_next_i i : pos N M i N 0 + 3 = pos N M (S i) 0 0.
Proof. unfold pos. lia. Qed.

Lemma pos_le_k i j k k' : (k <= k')%nat -> pos N M i j k <= pos N M i j k'.
Proof. unfold pos. lia. Qed.

(** [for k in range(n_tx)], from [k0] on. *)
Lemma k_loop rem i j :
  (i < 30)%nat -> (j < N)%nat ->
  forall cnt k0 w,
    (k0 + cnt = M)%nat ->
    on_track data (pos N M i j k0) (index w) ->
    (in_reach data (index w) = true -> rem = index w mod 8) ->
    dims (csi_of w) 30 N M ->
    exists w',
      for_in (seq k0 cnt) (k_body data perm rem i j) w = Ok w'
      /\ on_track data (pos N M i j (k0 + cnt)) (index w')
      /\ (in_reach data (index w') = true -> rem = index w' mod 8)
      /\ dims (csi_of w') 30 N M
      /\ forall i' r k',
          get3 (csi_of w') i' r k' =
          if ((i' =? i) && (k0 <=? k'))%nat && writes data perm N M i j r k'
          then Some (sample_at data (pos N M i j k'))
          else get3 (csi_of w) i' r k'.
Proof.
  intros Hi Hj. unfold writes.
  induction cnt as [|cnt IH]; intros k0 w Hk (H0 & Hle & Heq) Hrem Hd.
  - exists w. cbn [seq for_in]. split; [done|].
    replace (k0 + 0)%nat with k0 by lia. split_and!; try done.
    intros i' r k'.
    destruct (Nat.leb_spec k0 k'), (Nat.ltb_spec k' M); try lia;
      by rewrite ?andb_false_r.
  - cbn [seq for_in].
    destruct (in_reach data (index w)) eqn:Hr.
    + specialize (Heq eq_refl).
      destruct (k_body_next rem i j k0 w Hr H0 (Hrem eq_refl) Hd Hi Hj)
        as (csi' & -> & Hd' & Hget); [lia|].
      destruct (IH (S k0) {| index := index w + 16; csi_of := csi' |})
        as (w' & Hrun & Htr & Hrem' & Hd'' & Hget'); cbn [index csi_of].
      * lia.
      * rewrite pos_succ_k, Heq. unfold on_track. split; [lia|]. split; [lia|done].
      * intros _. rewrite (Hrem eq_refl). lia.
      * done.
      * exists w'. split; [done|].
        replace (k0 + S cnt)%nat with (S k0 + cnt)%nat by lia.
        split_and!; try apply Htr; try done.
        intros i' r k'. rewrite Hget', Hget. cbn [index csi_of].
        destruct (Nat.eqb_spec i' i) as [->|]; [|done].
        destruct (Nat.eqb_spec r (row_of perm N j)) as [->|];
          [|by rewrite !andb_false_r].
        cbn [andb].
        destruct (Nat.leb_spec (S k0) k'), (Nat.leb_spec k0 k'),
          (Nat.eqb_spec k' k0), (Nat.ltb_spec k' M);
          try lia; cbn [andb]; try done.
        subst k'. by rewrite <- Heq, Hr.
    + rewrite k_body_break by done.
      exists w. split; [done|]. split.
      { split; [done|]. split; [|by rewrite Hr].
        etrans; [exact Hle|]. apply pos_le_k. lia. }
      split; [by rewrite Hr|]. split; [done|].
      intros i' r k'.
      destruct (Nat.leb_spec k0 k') as [Hk'|]; [|by rewrite andb_false_r].
      rewrite (in_reach_up (index w) (pos N M i j k')), !andb_false_r; try done.
      etrans; [exact Hle|]. by apply pos_le_k.
Qed.

(** [for j in range(n_rx)], from [j0] on. *)
Lemma j_loop ntx rem i :
  Z.to_nat ntx = M -> (i < 30)%nat ->
  forall cnt j0 w,
    (j0 + cnt = N)%nat ->
    on_track data (pos N M i j0 0) (index w) ->
    (in_reach data (index w) = true -> rem = index w mod 8) ->
    dims (csi_of w) 30 N M ->
    exists w',
      for_in (seq j0 cnt) (j_body data perm ntx rem i) w = Ok w'
      /\ on_track data (pos N M i (j0 + cnt) 0) (index w')
      /\ (in_reach data (index w') = true -> rem = index w' mod 8)
      /\ dims (csi_of w') 30 N M
      /\ forall i' r k',
          get3 (csi_of w') i' r k' =
          if (i' =? i)%nat
          then match last_writer data perm N M i r k' j0 cnt with
               | Some j => Some (sample_at data (pos N M i j k'))
               | None => get3 (csi_of w) i' r k'
               end
          else get3 (csi_of w) i' r k'.
Proof.
  intros HM Hi. induction cnt as [|cnt IH]; intros j0 w Hj Htr Hrem Hd.
  - exists w. cbn [seq for_in last_writer].
    replace (j0 + 0)%nat with j0 by lia. split_and!; try done.
    intros i' r k'. by destruct (i' =? i)%nat.
  - cbn [seq for_in]. unfold j_body at 1, range. rewrite HM.
    destruct (k_loop rem i j0 Hi ltac:(lia) M 0%nat w) as
      (w1 & -> & Htr1 & Hrem1 & Hd1 & Hget1); try done.
    cbn [nested]. rewrite Nat.add_0_l, pos_next_j in Htr1.
    destruct (IH (S j0) w1) as (w' & Hrun & Htr' & Hrem' & Hd' & Hget');
      try done; try lia.
    exists w'. replace (j0 + S cnt)%nat with (S j0 + cnt)%nat by lia.
    split_and!; try done.
    intros i' r k'. rewrite Hget', !Hget1. cbn [last_writer].
    destruct (Nat.eqb_spec i' i) as [->|]; [|done]. cbn [andb Nat.leb].
    destruct (last_writer data perm N M i r k' (S j0) cnt); [done|].
    by destruct (writes data perm N M i j0 r k').
Qed.

(** The position just before the three bits that open subcarrier [i]. *)
Lemma on_track_skip3 i idx :
  on_track data (pos N M i 0 0 - 3) idx -> on_track data (pos N M i 0 0) (idx + 3).
Proof.
  intros (H0 & Hle & Heq). split; [lia|]. split; [lia|].
  intros Hr. rewrite Heq; [lia|]. apply (in_reach_down _ (idx + 3)); [lia|done].
Qed.

(** [for i in range(30)], from [i0] on. *)
Lemma i_loop nrx ntx :
  Z.to_nat nrx = N -> Z.to_nat ntx = M ->
  forall cnt i0 w,
    (i0 + cnt = 30)%nat ->
    on_track data (pos N M i0 0 0 - 3) (index w) ->
    dims (csi_of w) 30 N M ->
    exists w',
      for_in (seq i0 cnt) (i_body data perm nrx ntx) w = Ok w'
      /\ dims (csi_of w') 30 N M
      /\ forall i' r k',
          get3 (csi_of w') i' r k' =
          if ((i0 <=? i') && (i' <? 30))%nat
          then match last_writer data perm N M i' r k' 0 N with
               | Some j => Some (sample_at data (pos N M i' j k'))
               | None => get3 (csi_of w) i' r k'
               end
          else get3 (csi_of w) i' r k'.
Proof.
  intros HN HM. induction cnt as [|cnt IH]; intros i0 w Hi Htr Hd.
  - exists w. cbn [seq for_in]. split_and!; try done.
    intros i' r k'.
    by destruct (Nat.leb_spec i0 i'), (Nat.ltb_spec i' 30); try lia.
  - cbn [seq for_in]. unfold i_body at 1, range. rewrite HN. cbn [index csi_of].
    destruct (j_loop ntx ((index w + 3) mod 8) i0 HM ltac:(lia) N 0%nat
                {| index := index w + 3; csi_of := csi_of w |})
      as (w1 & -> & Htr1 & _ & Hd1 & Hget1); cbn [index csi_of]; try done.
    { by apply on_track_skip3. }
    cbn [nested]. cbn [index csi_of] in Hget1.
    destruct (IH (S i0) w1) as (w' & Hrun & Hd' & Hget'); try done; [lia| |].
    { rewrite <- pos_next_i. rewrite Nat.add_0_l in Htr1.
      by replace (pos N M i0 N 0 + 3 - 3) with (pos N M i0 N 0) by lia. }
    exists w'. split_and!; try done.
    intros i' r k'. rewrite Hget', !Hget1.
    destruct (Nat.leb_spec (S i0) i'), (Nat.leb_spec i0 i'),
      (Nat.ltb_spec i' 30), (Nat.eqb_spec i' i0); try lia; cbn [andb]; try done.
    all: try (by subst i').
    all: by destruct (last_writer data perm N M i' r k' 0 N).
Qed.

End WalkFacts.

(** The array [read_bfee] fills: the walk never raises, the array has the
    shape the header asks for, and every cell holds what [walked] says. *)
Lemma fill_csi_walked mem hdr data perm :
  exists csi,
    fill_csi mem hdr data perm = Ok csi
    /\ dims csi 30 (Z.to_nat (n_rx hdr)) (Z.to_nat (n_tx hdr))
    /\ forall i r k,
        (i < 30)%nat -> (r < Z.to_nat (n_rx hdr))%nat ->
        (k < Z.to_nat (n_tx hdr))%nat ->
        get3 csi i r k =
        Some (walked data perm (Z.to_nat (n_rx hdr)) (Z.to_nat (n_tx hdr))
                     mem i r k).
Proof.
  unfold fill_csi, range. change (Z.to_nat 30) with 30%nat.
  destruct (i_loop data perm (Z.to_nat (n_rx hdr)) (Z.to_nat (n_tx hdr))
              (n_rx hdr) (n_tx hdr) eq_refl eq_refl 30 0%nat
              {| index := 0;
                 csi_of := np_empty mem 30 (Z.to_nat (n_rx hdr))
                                    (Z.to_nat (n_tx hdr)) |})
    as (w' & -> & Hd & Hget); cbn [index csi_of];
    try done; try apply np_empty_dims.
  exists (csi_of w'). cbn [bind]. split_and!; try done.
  intros i r k Hi Hr Hk. rewrite Hget. cbn [csi_of].
  destruct (Nat.ltb_spec i 30); [|lia]. cbn [Nat.leb andb]. unfold walked.
  destruct (last_writer _ _ _ _ _ _ _ _ _); [done|].
  by apply get3_np_empty.
Qed.

(** ** Who writes a cell *)

Lemma last_writer_Some data perm N M i r k cnt : forall j0 j,
  last_writer data perm N M i r k j0 cnt = Some j ->
  (j0 <= j < j0 + cnt)%nat /\ writes data perm N M i j r k = true.
Proof.
  induction cnt as [|cnt IH]; intros j0 j; cbn [last_writer]; [done|].
  destruct (last_writer data perm N M i r k (S j0) cnt) as [j'|] eqn:E.
  - intros [= ->]. destruct (IH _ _ E). split; [lia|done].
  - destruct (writes data perm N M i j0 r k) eqn:W; [|done].
    intros [= <-]. split; [lia|done].
Qed.

Lemma last_writer_None data perm N M i r k cnt : forall j0 j,
  last_writer data perm N M i r k j0 cnt = None ->
  (j0 <= j < j0 + cnt)%nat -> writes data perm N M i j r k = false.
Proof.
  induction cnt as [|cnt IH]; intros j0 j; cbn [last_writer]; [lia|].
  destruct (last_writer data perm N M i r k (S j0) cnt) as [j'|] eqn:E; [done|].
  destruct (writes data perm N M i j0 r k) eqn:W; [done|].
  intros _ Hj. destruct (decide (j = j0)) as [->|]; [done|].
  apply (IH (S j0)); [done|lia].
Qed.

(** When no two antennas share a row, the cell of antenna [j] holds the
    sample of antenna [j] if its extraction was in reach, and is untouched
    otherwise. *)
Lemma walked_one_writer data perm N M mem i j k :
  (forall j1 j2, (j1 < N)%nat -> (j2 < N)%nat ->
                 row_of perm N j1 = row_of perm N j2 -> j1 = j2) ->
  (j < N)%nat -> (k < M)%nat ->
  walked data perm N M mem i (row_of perm N j) k =
  if in_reach data (pos N M i j k) then sample_at data (pos N M i j k)
  else mem i (row_of perm N j) k.
Proof.
  intros Hinj Hj Hk. unfold walked.
  destruct (last_writer data perm N M i (row_of perm N j) k 0 N) as [j'|] eqn:E.
  - apply last_writer_Some in E as [Hj' W]. unfold writes in W.
    apply andb_prop in W as [W Hr]. apply andb_prop in W as [W _].
    apply Nat.eqb_eq in W. apply Hinj in W; [|done|lia]. subst j'.
    by rewrite Hr.
  - apply (last_writer_None _ _ _ _ _ _ _ _ _ j) in E; [|lia].
    unfold writes in E. rewrite Nat.eqb_refl in E.
    destruct (Nat.ltb_spec k M); [|lia]. cbn [andb] in E. by rewrite E.
Qed.

(** The default permutation sends every antenna to its own row. *)
Lemma row_of_default N j : row_of [0; 1; 2] N j = j.
Proof.
  unfold row_of. destruct j as [|[|[|j]]]; cbn [lookup list_lookup]; try done.
  all: by match goal with |- (if ?b then _ else _) = _ => destruct b end.
Qed.

(** ** [read_bfee] *)

Lemma map3_dims f csi d0 d1 d2 : dims csi d0 d1 d2 -> dims (map3 f csi) d0 d1 d2.
Proof.
  unfold dims, map3. intros [Hl Hall]. split; [by rewrite length_map|].
  apply Forall_forall. intros plane Hp.
  apply list_elem_of_In, in_map_iff in Hp as (plane0 & <- & Hin).
  apply list_elem_of_In in Hin.
  destruct (proj1 (Forall_forall _ _) Hall plane0 Hin) as [Hlp Hrows].
  split; [by rewrite length_map|].
  apply Forall_forall. intros row Hr.
  apply list_elem_of_In, in_map_iff in Hr as (row0 & <- & Hin').
  apply list_elem_of_In in Hin'.
  rewrite length_map. exact (proj1 (Forall_forall _ _) Hrows row0 Hin').
Qed.

Lemma scale_csi_entry_dims db_pow dbinv csi hdr d0 d1 d2 :
  dims csi d0 d1 d2 -> dims (scale_csi_entry db_pow dbinv csi hdr) d0 d1 d2.
Proof.
  intros Hd. unfold scale_csi_entry.
  destruct (n_tx hdr =? 2); [|destruct (n_tx hdr =? 3)];
    repeat apply map3_dims; done.
Qed.

Lemma read_bfee_mismatch db_pow dbinv mem hdr data perm scaled :
  payload_length hdr <> Z.of_nat (length data) ->
  read_bfee db_pow dbinv mem hdr data perm scaled = Ok None.
Proof.
  intros H. unfold read_bfee.
  by destruct (Z.eqb_spec (payload_length hdr) (Z.of_nat (length data))).
Qed.

Lemma read_bfee_match db_pow dbinv mem hdr data perm scaled :
  payload_length hdr = Z.of_nat (length data) ->
  exists csi,
    fill_csi mem hdr data perm = Ok csi /\
    read_bfee db_pow dbinv mem hdr data perm scaled =
    Ok (Some (if scaled then scale_csi_entry db_pow dbinv csi hdr else csi)).
Proof.
  intros H. unfold read_bfee.
  destruct (Z.eqb_spec (payload_length hdr) (Z.of_nat (length data))); [|done].
  destruct (fill_csi_walked mem hdr data perm) as (csi & -> & _).
  exists csi. cbn. by destruct scaled.
Qed.

(** ** Slices and [struct] *)

Lemma length_slice data a b :
  0 <= a ->
  length (slice data a b) = (Z.to_nat (b - a) `min` (length data - Z.to_nat a))%nat.
Proof. intros _. unfold slice. by rewrite length_take, length_drop. Qed.

Lemma b2z_range b : 0 <= b2z b < 256.
Proof.
  unfold b2z. pose proof (Byte.to_N_bounded b) as H. lia.
Qed.

Lemma SIZE_STRUCT_ok bs :
  length bs = 2%nat -> exists size, SIZE_STRUCT bs = Ok size /\ 0 <= size < 65536.
Proof.
  destruct bs as [|hi [|lo [|? ?]]]; try done. intros _.
  eexists. split; [reflexivity|].
  pose proof (b2z_range hi). pose proof (b2z_range lo). lia.
Qed.

Lemma CODE_STRUCT_ok bs :
  length bs = 1%nat -> exists code, CODE_STRUCT bs = Ok code.
Proof. destruct bs as [|c [|? ?]]; try done. by eexists. Qed.

Lemma HEADER_STRUCT_ok bs :
  length bs = 20%nat -> exists hdr, HEADER_STRUCT bs = Ok hdr.
Proof.
  intros H. do 20 (destruct bs as [|? bs]; [done|]).
  destruct bs; [by eexists|done].
Qed.

Lemma HEADER_STRUCT_short bs :
  (length bs < 20)%nat -> HEADER_STRUCT bs = Raise StructError.
Proof.
  intros H. do 20 (destruct bs as [|? bs]; [done|]). cbn in H. lia.
Qed.

(** ** One pass through the scan *)

Lemma SIZE_STRUCT_range bs size : SIZE_STRUCT bs = Ok size -> 0 <= size < 65536.
Proof.
  destruct bs as [|hi [|lo [|? ?]]]; try done. intros [= <-].
  pose proof (b2z_range hi). pose proof (b2z_range lo). lia.
Qed.

Lemma relative_timestamps_app init ts1 ts2 :
  relative_timestamps init (ts1 ++ ts2) =
  relative_timestamps init ts1
  ++ relative_timestamps (baseline_after init ts1) ts2.
Proof.
  revert init. induction ts1 as [|t ts1 IH]; intros init; [done|].
  cbn [app relative_timestamps baseline_after]. by rewrite IH.
Qed.

Lemma baseline_after_app init ts1 ts2 :
  baseline_after init (ts1 ++ ts2) = baseline_after (baseline_after init ts1) ts2.
Proof.
  revert init. induction ts1 as [|t ts1 IH]; intros init; [done|].
  cbn [app baseline_after]. by rewrite IH.
Qed.

Section ScanFacts.

Variable db_pow : float -> float.
Variable dbinv : float -> float.
Variable heap : Z -> nat -> nat -> nat -> complex.

(** [read_bfee] returns, with [None] or with an array: it never raises. *)
Lemma read_bfee_returns mem hdr data perm scaled :
  exists r, read_bfee db_pow dbinv mem hdr data perm scaled = Ok r
            /\ (is_Some r <-> payload_length hdr = Z.of_nat (length data)).
Proof.
  destruct (Z.eq_dec (payload_length hdr) (Z.of_nat (length data))) as [E|E].
  - destruct (read_bfee_match db_pow dbinv mem hdr data perm scaled E)
      as (csi & _ & ->). eexists. split; [done|]. split; [done|]. by eexists.
  - rewrite read_bfee_mismatch by done. exists None. split; [done|].
    split; [by intros [? ?]|done].
Qed.

(** What one pass adds: at most one frame, with its relative timestamp;
    the counter goes up by one and the cursor moves on by [size + 2]. *)
Lemma scan_body_adds data scaled s s' :
  scan_body db_pow dbinv heap data scaled s = Ok s' ->
  exists new size,
    (length new <= 1)%nat
    /\ SIZE_STRUCT (slice data (cursor s) (cursor s + 2)) = Ok size
    /\ 0 <= size < 65536
    /\ cursor s' = cursor s + 3 + (size - 1)
    /\ frames (ret_data s') = frames (ret_data s) ++ new
    /\ timestamps (ret_data s') =
       timestamps (ret_data s)
       ++ relative_timestamps (initial_timestamp s)
                              (map (fun f => seconds (frame_header f)) new)
    /\ initial_timestamp s' =
       baseline_after (initial_timestamp s)
                      (map (fun f => seconds (frame_header f)) new)
    /\ expected_frames (ret_data s') = expected_frames (ret_data s) + 1.
Proof.
  unfold scan_body.
  destruct (SIZE_STRUCT _) as [size|] eqn:Es; [|done].
  destruct (CODE_STRUCT _) as [code|] eqn:Ec; [|done]. cbn [bind].
  pose proof (SIZE_STRUCT_range _ _ Es) as Hrange.
  destruct (code =? VALID_BEAMFORMING_MEASUREMENT).
  - unfold valid_block.
    destruct (HEADER_STRUCT _) as [hdr|]; [|done]. cbn [bind].
    destruct (read_bfee _ _ _ _ _ _ _) as [[m|]|]; [| |done]; cbn [bind].
    + intros [= <-]. cbn.
      exists [{| frame_header := hdr; frame_csi := m |}], size.
      split_and!; try done; try (cbn; lia).
    + intros [= <-]. cbn. exists [], size.
      split_and!; rewrite ?app_nil_r; try done; try (cbn; lia).
  - cbn [bind]. intros [= <-]. cbn. exists [], size.
    split_and!; rewrite ?app_nil_r; try done; try (cbn; lia).
Qed.

(** The scan from state [s] on adds frames and their relative timestamps,
    counted from the initial timestamp of [s]. *)
Lemma scan_loop_adds data scaled fuel : forall s r,
  scan_loop db_pow dbinv heap fuel data scaled s = Some (Ok r) ->
  exists new,
    frames r = frames (ret_data s) ++ new
    /\ timestamps r =
       timestamps (ret_data s)
       ++ relative_timestamps (initial_timestamp s)
                              (map (fun f => seconds (frame_header f)) new).
Proof.
  induction fuel as [|fuel IH]; intros s r; cbn [scan_loop].
  - destruct (scan_guard data s); [done|]. intros [= <-].
    exists []. by rewrite !app_nil_r.
  - destruct (scan_guard data s).
    + destruct (scan_body _ _ _ _ _ s) as [s'|] eqn:Eb; [|done].
      intros Hr. apply IH in Hr as (new2 & Hf & Ht).
      apply scan_body_adds in Eb
        as (new1 & _ & _ & _ & _ & _ & Hf1 & Ht1 & Hi1 & _).
      exists (new1 ++ new2).
      rewrite Hf, Ht, Hf1, Ht1, Hi1, map_app, relative_timestamps_app.
      by rewrite <- !app_assoc.
    + intros [= <-]. exists []. by rewrite !app_nil_r.
Qed.

(** Fuel: each pass moves the cursor on by two bytes at least, so the
    length of the buffer is fuel enough. *)
Lemma scan_loop_fuel data scaled fuel : forall s,
  0 <= cursor s ->
  Z.of_nat (length data) - cursor s - 100 <= Z.of_nat fuel ->
  is_Some (scan_loop db_pow dbinv heap fuel data scaled s).
Proof.
  induction fuel as [|fuel IH]; intros s H0 Hf; cbn [scan_loop].
  - unfold scan_guard. destruct (Z.gtb_spec (Z.of_nat (length data) - cursor s) 100);
      [lia|by eexists].
  - destruct (scan_guard data s) eqn:G; [|by eexists].
    destruct (scan_body _ _ _ _ _ s) as [s'|] eqn:Eb; [|by eexists].
    apply scan_body_adds in Eb as (_ & size & _ & _ & Hs & Hc & _).
    apply IH; lia.
Qed.

End ScanFacts.

(** ** The whole scan *)

Section ReadFileFacts.

Variable db_pow : float -> float.
Variable dbinv : float -> float.
Variable heap : Z -> nat -> nat -> nat -> complex.

(** [read_file] returns or raises: the loop ends. *)
Lemma read_file_total data scaled :
  is_Some (read_file db_pow dbinv heap data scaled).
Proof. unfold read_file. apply scan_loop_fuel; cbn; lia. Qed.

(** The timestamps of the result are the relative timestamps of its frames,
    counted from the initial timestamp 0. *)
Lemma read_file_timestamps data scaled r :
  read_file db_pow dbinv heap data scaled = Some (Ok r) ->
  timestamps r =
  relative_timestamps 0 (map (fun f => seconds (frame_header f)) (frames r)).
Proof.
  intros H. apply scan_loop_adds in H as (new & Hf & Ht).
  cbn in Hf, Ht. by rewrite Ht, Hf.
Qed.

End ReadFileFacts.

Lemma relative_timestamps_fixed init ts :
  PrimFloat.eqb init 0 = false ->
  relative_timestamps init ts = map (fun t => (t - init)%float) ts.
Proof.
  intros H. induction ts as [|t ts IH]; [done|].
  cbn [relative_timestamps map]. rewrite H. by rewrite IH.
Qed.

Lemma seconds_tick_0 hdr : timestamp_low hdr = 0 -> seconds hdr = 0%float.
Proof. unfold seconds. by intros ->. Qed.

Lemma relative_timestamps_zeros (zs : list frame) ts :
  Forall (fun z => timestamp_low (frame_header z) = 0) zs ->
  relative_timestamps 0 (map (fun f => seconds (frame_header f)) zs ++ ts) =
  map (fun _ => 0%float) zs ++ relative_timestamps 0 ts.
Proof.
  induction 1 as [|z zs Hz _ IH]; [done|].
  cbn [map app relative_timestamps]. rewrite (seconds_tick_0 _ Hz).
  change (if PrimFloat.eqb 0 0 then 0%float else 0%float) with 0%float.
  change (0 - 0)%float with 0%float. by rewrite IH.
Qed.

(** ** The length check (claim C1) *)

(** C1. A record with the valid-measurement code, read by one pass of the
    scan from state [s]: when the header's [payload_length] differs from
    the number of payload bytes, [read_bfee] returns [None], the pass adds
    no frame and no timestamp, and the counter [expected_frames] still goes
    up by one; when the two are equal, [read_bfee] returns an array and the
    pass appends the frame made of the header and that array (and counts
    the record as well). *)
Theorem length_mismatch_drops_record
    (db_pow dbinv : float -> float) (heap : Z -> nat -> nat -> nat -> complex)
    (data : list byte) (scaled : bool) (s : scan) (size : Z) (hdr : header) :
  SIZE_STRUCT (slice data (cursor s) (cursor s + 2)) = Ok size ->
  CODE_STRUCT (slice data (cursor s + 2) (cursor s + 3))
  = Ok VALID_BEAMFORMING_MEASUREMENT ->
  HEADER_STRUCT (take 20 (slice data (cursor s + 3) (cursor s + 3 + size - 1)))
  = Ok hdr ->
  (payload_length hdr
   <> Z.of_nat (length (drop 20 (slice data (cursor s + 3)
                                       (cursor s + 3 + size - 1)))) ->
   read_bfee db_pow dbinv (heap (expected_frames (ret_data s))) hdr
             (drop 20 (slice data (cursor s + 3) (cursor s + 3 + size - 1)))
             (perm_of (n_rx hdr) (antenna_sel hdr)) scaled = Ok None
   /\ exists s',
       scan_body db_pow dbinv heap data scaled s = Ok s'
       /\ frames (ret_data s') = frames (ret_data s)
       /\ timestamps (ret_data s') = timestamps (ret_data s)
       /\ expected_frames (ret_data s') = expected_frames (ret_data s) + 1)
  /\
  (payload_length hdr
   = Z.of_nat (length (drop 20 (slice data (cursor s + 3)
                                      (cursor s + 3 + size - 1)))) ->
   exists m s',
     read_bfee db_pow dbinv (heap (expected_frames (ret_data s))) hdr
               (drop 20 (slice data (cursor s + 3) (cursor s + 3 + size - 1)))
               (perm_of (n_rx hdr) (antenna_sel hdr)) scaled = Ok (Some m)
     /\ scan_body db_pow dbinv heap data scaled s = Ok s'
     /\ frames (ret_data s')
        = frames (ret_data s) ++ [{| frame_header := hdr; frame_csi := m |}]
     /\ expected_frames (ret_data s') = expected_frames (ret_data s) + 1).
Proof.
  intros Hsize Hcode Hhdr. split; intros Hlen.
  - pose proof (read_bfee_mismatch db_pow dbinv
                  (heap (expected_frames (ret_data s))) hdr _
                  (perm_of (n_rx hdr) (antenna_sel hdr)) scaled Hlen) as Hr.
    split; [exact Hr|].
    unfold scan_body, valid_block. rewrite Hsize, Hcode. cbn [bind].
    rewrite Z.eqb_refl, Hhdr. cbn [bind]. rewrite Hr. cbn [bind].
    eexists. split; [reflexivity|]. by cbn.
  - destruct (read_bfee_match db_pow dbinv
                (heap (expected_frames (ret_data s))) hdr _
                (perm_of (n_rx hdr) (antenna_sel hdr)) scaled Hlen)
      as (csi & _ & Hr).
    eexists. eexists. split; [exact Hr|].
    unfold scan_body, valid_block. rewrite Hsize, Hcode. cbn [bind].
    rewrite Z.eqb_refl, Hhdr. cbn [bind]. rewrite Hr. cbn [bind].
    split; [reflexivity|]. by cbn.
Qed.

(** The first record of [one_dropped] announces 5 payload bytes and has
    none: the pass over it adds nothing and counts it. *)
Lemma length_mismatch_drops_record_witness :
  exists s',
    scan_body db_stand_in db_stand_in stale_heap one_dropped false scan_start = Ok s'
    /\ frames (ret_data s') = []
    /\ timestamps (ret_data s') = []
    /\ expected_frames (ret_data s') = 1.
Proof.
  refine (proj2 (proj1 (length_mismatch_drops_record db_stand_in db_stand_in
            stale_heap one_dropped false scan_start 21
            (plain_header 1000000 5) _ _ _) _)).
  - reflexivity.
  - reflexivity.
  - reflexivity.
  - vm_compute. discriminate.
Defined.

(** ** Relative timestamps (claims C3 and C10) *)

(** C3, as the code has it. For every buffer the scan returns from, when
    the first emitted frame has a converted timestamp that is not zero, the
    relative timestamp of every emitted frame is its [timestamp_low] times
    [10e-7] (the constant of the source: a tick of one microsecond) minus
    the first emitted frame's [timestamp_low] times [10e-7]. *)
Theorem timestamps_relative_to_first
    (db_pow dbinv : float -> float) (heap : Z -> nat -> nat -> nat -> complex)
    (data : list byte) (scaled : bool) (r : csidata) (f0 : frame)
    (rest : list frame) :
  read_file db_pow dbinv heap data scaled = Some (Ok r) ->
  frames r = f0 :: rest ->
  PrimFloat.eqb (seconds (frame_header f0)) 0 = false ->
  timestamps r =
  map (fun f => (float_of_Z (timestamp_low (frame_header f)) * 10e-7
                 - float_of_Z (timestamp_low (frame_header f0)) * 10e-7)%float)
      (frames r).
Proof.
  intros Hr Hf H0. rewrite (read_file_timestamps _ _ _ _ _ _ Hr), Hf.
  cbn [map relative_timestamps].
  change (PrimFloat.eqb 0 0) with true. cbn match.
  rewrite (relative_timestamps_fixed _ _ H0), map_map. done.
Qed.

(** The two frames of [two_frames], at 1000000 and 3000000 ticks, get the
    relative timestamps 0 and 2 seconds. *)
Lemma timestamps_relative_to_first_witness :
  exists r,
    read_file db_stand_in db_stand_in stale_heap two_frames false = Some (Ok r)
    /\ timestamps r = [0; 2]%float.
Proof.
  eexists. split; [vm_compute; reflexivity|].
  etransitivity.
  - eapply (timestamps_relative_to_first db_stand_in db_stand_in stale_heap
              two_frames false).
    + vm_compute. reflexivity.
    + reflexivity.
    + vm_compute. reflexivity.
  - vm_compute. reflexivity.
Defined.

(** C3 as the specification words it fails twice. With a tick of 100 ns the
    second frame of [two_frames] would be 0.2 s after the first; the scan
    says 2 s. And counted from the first emitted frame, the frames of
    [three_frames] (ticks 0, 1000000, 3000000) would be at 0, 1 and 3 s; the
    scan says 0, 0 and 2 s. *)
Lemma timestamps_100ns_counterexample :
  (exists r,
      read_file db_stand_in db_stand_in stale_heap two_frames false = Some (Ok r)
      /\ timestamps r = [0; 2]%float
      /\ timestamps_100ns (frames r) = [0; 0.20000000000000001]%float
      /\ timestamps r <> timestamps_100ns (frames r))
  /\
  (exists r,
      read_file db_stand_in db_stand_in stale_heap three_frames false = Some (Ok r)
      /\ timestamps r = [0; 0; 2]%float
      /\ timestamps_from_first (frames r) = [0; 1; 3]%float
      /\ timestamps r <> timestamps_from_first (frames r)).
Proof.
  split.
  - eexists. split; [vm_compute; reflexivity|].
    split; [vm_compute; reflexivity|]. split; [vm_compute; reflexivity|].
    floats_differ 1%nat 2%float.
  - eexists. split; [vm_compute; reflexivity|].
    split; [vm_compute; reflexivity|]. split; [vm_compute; reflexivity|].
    floats_differ 1%nat 0%float.
Qed.

(** C10. For every buffer the scan returns from: when the emitted frames
    are some frames [zs] with [timestamp_low = 0], then a frame [f] whose
    converted timestamp is not zero, then the frames [rest], the initial
    timestamp is taken from [f]: every frame of [zs] gets the relative
    timestamp 0, and [f] and the frames after it are measured from [f], not
    from the first emitted frame. *)
Theorem baseline_from_first_nonzero
    (db_pow dbinv : float -> float) (heap : Z -> nat -> nat -> nat -> complex)
    (data : list byte) (scaled : bool) (r : csidata) (zs : list frame)
    (f : frame) (rest : list frame) :
  read_file db_pow dbinv heap data scaled = Some (Ok r) ->
  frames r = zs ++ f :: rest ->
  Forall (fun z => timestamp_low (frame_header z) = 0) zs ->
  PrimFloat.eqb (seconds (frame_header f)) 0 = false ->
  timestamps r =
  map (fun _ => 0%float) zs
  ++ map (fun g => (seconds (frame_header g) - seconds (frame_header f))%float)
         (f :: rest).
Proof.
  intros Hr Hf Hz H0. rewrite (read_file_timestamps _ _ _ _ _ _ Hr), Hf.
  rewrite map_app, (relative_timestamps_zeros _ _ Hz). f_equal.
  cbn [map relative_timestamps].
  change (PrimFloat.eqb 0 0) with true. cbn match.
  rewrite (relative_timestamps_fixed _ _ H0), map_map. done.
Qed.

(** The three frames of [three_frames], at ticks 0, 1000000 and 3000000:
    the initial timestamp is the one of the second frame, and the relative
    timestamps are 0, 0 and 2 seconds. *)
Lemma baseline_from_first_nonzero_witness :
  exists r,
    read_file db_stand_in db_stand_in stale_heap three_frames false = Some (Ok r)
    /\ timestamps r = [0; 0; 2]%float.
Proof.
  eexists. split; [vm_compute; reflexivity|].
  etransitivity.
  - eapply (baseline_from_first_nonzero db_stand_in db_stand_in stale_heap
              three_frames false _ [_] _ [_]).
    + vm_compute. reflexivity.
    + reflexivity.
    + repeat constructor.
    + vm_compute. reflexivity.
  - vm_compute. reflexivity.
Defined.

(** ** Antenna counts and truncated payloads (claims C9 and C4) *)

(** C9. A valid-code record whose header and payload lengths agree is
    decoded whatever [n_rx] and [n_tx] are: [read_bfee] returns an array of
    shape [(30, n_rx, n_tx)] with the header's raw values, and the pass of
    the scan appends the frame. There is no hypothesis on the antenna
    counts. *)
Theorem antenna_counts_not_validated
    (db_pow dbinv : float -> float) (heap : Z -> nat -> nat -> nat -> complex)
    (data : list byte) (scaled : bool) (s : scan) (size : Z) (hdr : header) :
  SIZE_STRUCT (slice data (cursor s) (cursor s + 2)) = Ok size ->
  CODE_STRUCT (slice data (cursor s + 2) (cursor s + 3))
  = Ok VALID_BEAMFORMING_MEASUREMENT ->
  HEADER_STRUCT (take 20 (slice data (cursor s + 3) (cursor s + 3 + size - 1)))
  = Ok hdr ->
  payload_length hdr
  = Z.of_nat (length (drop 20 (slice data (cursor s + 3)
                                     (cursor s + 3 + size - 1)))) ->
  exists m s',
    read_bfee db_pow dbinv (heap (expected_frames (ret_data s))) hdr
              (drop 20 (slice data (cursor s + 3) (cursor s + 3 + size - 1)))
              (perm_of (n_rx hdr) (antenna_sel hdr)) scaled = Ok (Some m)
    /\ dims m 30 (Z.to_nat (n_rx hdr)) (Z.to_nat (n_tx hdr))
    /\ scan_body db_pow dbinv heap data scaled s = Ok s'
    /\ frames (ret_data s')
       = frames (ret_data s) ++ [{| frame_header := hdr; frame_csi := m |}].
Proof.
  intros Hsize Hcode Hhdr Hlen.
  unfold scan_body, valid_block, read_bfee.
  rewrite Hsize, Hcode. cbn [bind]. rewrite Z.eqb_refl, Hhdr. cbn [bind].
  rewrite Hlen, Z.eqb_refl. cbn [negb].
  destruct (fill_csi_walked (heap (expected_frames (ret_data s))) hdr
              (drop 20 (slice data (cursor s + 3) (cursor s + 3 + size - 1)))
              (perm_of (n_rx hdr) (antenna_sel hdr)))
    as (csi & -> & Hd & _). cbn [bind].
  destruct scaled; cbn [bind]; eexists; eexists;
    (split; [reflexivity|]); (split; [|by cbn]);
    [by apply scale_csi_entry_dims|done].
Qed.

(** The record of [no_rx_file] announces [n_rx = 0]: the scan appends a
    frame whose array has 30 planes without rows. *)
Lemma antenna_counts_not_validated_witness :
  exists m s',
    read_bfee db_stand_in db_stand_in (stale_heap 0) no_rx_header []
              (perm_of 0 36) false = Ok (Some m)
    /\ dims m 30 0 2
    /\ scan_body db_stand_in db_stand_in stale_heap no_rx_file false scan_start
       = Ok s'
    /\ frames (ret_data s')
       = [{| frame_header := no_rx_header; frame_csi := m |}].
Proof.
  refine (antenna_counts_not_validated db_stand_in db_stand_in stale_heap
            no_rx_file false scan_start 21 no_rx_header _ _ _ _);
    reflexivity.
Defined.

(** C4, as the code has it. For every record whose lengths agree decoding
    does not fail, and each cell [(i, r, k)] of the array holds the sample
    of the last receive antenna stored in row [r] whose extraction was in
    reach ([byte_index + 2] before the end of the payload); a cell no
    extraction reached keeps what the memory from [np.empty] held, which is
    not initialised. When no two antennas share a row, as with the default
    permutation, the cell of antenna [j] holds the sample decoded at its
    own bit index when that was in reach and the content of the allocation
    otherwise. *)
Theorem truncated_cells_keep_allocation
    (db_pow dbinv : float -> float) (mem : nat -> nat -> nat -> complex)
    (hdr : header) (data : list byte) (perm : list Z) :
  payload_length hdr = Z.of_nat (length data) ->
  exists csi,
    read_bfee db_pow dbinv mem hdr data perm false = Ok (Some csi)
    /\ (forall i r k,
          (i < 30)%nat -> (r < Z.to_nat (n_rx hdr))%nat ->
          (k < Z.to_nat (n_tx hdr))%nat ->
          get3 csi i r k
          = Some (walked data perm (Z.to_nat (n_rx hdr)) (Z.to_nat (n_tx hdr))
                         mem i r k))
    /\ ((forall j1 j2,
            (j1 < Z.to_nat (n_rx hdr))%nat -> (j2 < Z.to_nat (n_rx hdr))%nat ->
            row_of perm (Z.to_nat (n_rx hdr)) j1
            = row_of perm (Z.to_nat (n_rx hdr)) j2 -> j1 = j2) ->
        forall i j k,
          (i < 30)%nat -> (j < Z.to_nat (n_rx hdr))%nat ->
          (k < Z.to_nat (n_tx hdr))%nat ->
          get3 csi i (row_of perm (Z.to_nat (n_rx hdr)) j) k
          = Some (if in_reach data
                       (pos (Z.to_nat (n_rx hdr)) (Z.to_nat (n_tx hdr)) i j k)
                  then sample_at data
                         (pos (Z.to_nat (n_rx hdr)) (Z.to_nat (n_tx hdr)) i j k)
                  else mem i (row_of perm (Z.to_nat (n_rx hdr)) j) k)).
Proof.
  intros Hlen. unfold read_bfee. rewrite Hlen, Z.eqb_refl. cbn [negb].
  destruct (fill_csi_walked mem hdr data perm) as (csi & -> & Hd & Hget).
  exists csi. cbn [bind]. split; [done|]. split; [done|].
  intros Hinj i j k Hi Hj Hk.
  rewrite Hget; [|done|by apply row_of_lt|done].
  by rewrite walked_one_writer.
Qed.

(** With the ten bytes of [short_payload], the cell of subcarrier 0 holds
    its sample and the cell of subcarrier 2, out of reach, holds what the
    memory held. *)
Lemma truncated_cells_keep_allocation_witness :
  exists csi,
    read_bfee db_stand_in db_stand_in (stale_heap 0) short_header short_payload
              [0; 1; 2] false = Ok (Some csi)
    /\ get3 csi 0 0 0 = Some (64%float, 96%float)
    /\ get3 csi 2 0 0 = Some (1.5%float, (-2.5)%float).
Proof.
  destruct (truncated_cells_keep_allocation db_stand_in db_stand_in (stale_heap 0)
              short_header short_payload [0; 1; 2] eq_refl)
    as (csi & Hr & Hget & _).
  exists csi. split; [exact Hr|].
  split; (etransitivity; [apply Hget; cbn; lia|vm_compute; reflexivity]).
Defined.

(** C4 as the specification words it fails: the array comes from [np.empty]
    and is not set to zero. With the ten bytes of [short_payload] and a
    memory that held 1.5 - 2.5j, the extraction for subcarrier 2 is out of
    reach, and its cell holds 1.5 - 2.5j, not 0. *)
Lemma truncated_cells_not_zero_counterexample :
  exists csi,
    read_bfee db_stand_in db_stand_in (stale_heap 0) short_header short_payload
              [0; 1; 2] false = Ok (Some csi)
    /\ in_reach short_payload (pos 2 1 2 0 0) = false
    /\ get3 csi 0 0 0 = Some (64%float, 96%float)
    /\ get3 csi 2 0 0 = Some (1.5%float, (-2.5)%float)
    /\ get3 csi 2 0 0 <> Some (0%float, 0%float).
Proof.
  eexists. split; [vm_compute; reflexivity|].
  split; [reflexivity|]. split; [reflexivity|]. split; [reflexivity|].
  intros H.
  apply (f_equal (fun o : option complex =>
                    match o with
                    | Some c => PrimFloat.eqb c.1 0
                    | None => true
                    end)) in H.
  vm_compute in H. discriminate H.
Qed.

(** ** The permutation (claim C7) *)

(** C7. The permutation handed to [read_bfee] is made of the 2-bit fields
    of [antenna_sel] at bit offsets 0, 2 and 4 when [n_rx] is 3, and is
    [0, 1, 2] for every other [n_rx], whatever [antenna_sel] is. *)
Theorem perm_from_antenna_sel_iff_three_rx (n_rx antenna_sel : Z) :
  perm_of n_rx antenna_sel =
  if n_rx =? 3
  then [field2 antenna_sel 0; field2 antenna_sel 2; field2 antenna_sel 4]
  else [0; 1; 2].
Proof.
  unfold perm_of, field2. cbn [foldr]. change (0 + (1 + (2 + 0))) with 3.
  destruct (Z.eqb_spec 3 n_rx) as [<-|Hne].
  - cbn. rewrite !Z.shiftr_div_pow2 by lia.
    change 3 with (Z.ones 2). rewrite !Z.land_ones by lia.
    by rewrite Z.div_1_r.
  - destruct (Z.eqb_spec n_rx 3); [congruence|done].
Qed.

(** ** The total received signal strength (claim C8) *)

(** C8. For all readings and every AGC value, [get_total_rss] is the dB
    value of the sum of the linear powers of exactly the readings that are
    not zero (a reading equal to 0 is left out before the conversion),
    minus 44, minus the AGC. *)
Theorem get_total_rss_nonzero_readings
    (db_pow dbinv : float -> float) (rssi_a rssi_b rssi_c agc : Z) :
  get_total_rss db_pow dbinv rssi_a rssi_b rssi_c agc
  = total_rss_spec db_pow dbinv rssi_a rssi_b rssi_c agc.
Proof.
  unfold get_total_rss, total_rss_spec. cbn [List.filter].
  by destruct (rssi_a =? 0), (rssi_b =? 0), (rssi_c =? 0).
Qed.

(** ** Scaling a matrix without power (claim C5) *)

Section FloatFacts.

Import SpecFloat.

Lemma is_NaN_is_nan x : is_NaN x -> PrimFloat.is_nan x = true.
Proof.
  unfold is_NaN, PrimFloat.is_nan. intros H. by rewrite FloatAxioms.eqb_spec, H.
Qed.

Lemma eqb_0_is_zero x : PrimFloat.eqb x 0 = true -> is_zero x.
Proof.
  rewrite FloatAxioms.eqb_spec. change (Prim2SF 0) with (S754_zero false).
  unfold is_zero, SFeqb, SFcompare.
  destruct (Prim2SF x) as [s|s| |s m e]; try done; [by eexists|..].
  all: by destruct s.
Qed.

Lemma is_zero_div_30 x : is_zero x -> is_zero (x / 30).
Proof.
  intros [s H]. unfold is_zero. rewrite FloatAxioms.div_spec, H.
  by exists (xorb s false).
Qed.

Lemma div_by_zero x z : is_zero z -> nan_or_inf (x / z).
Proof.
  intros [s H]. unfold nan_or_inf. rewrite FloatAxioms.div_spec, H.
  destruct (Prim2SF x) as [sx|sx| |sx m e]; cbn; eauto.
Qed.

Lemma nan_or_inf_mul x y : nan_or_inf x -> nan_or_inf (x * y).
Proof.
  unfold nan_or_inf. rewrite FloatAxioms.mul_spec. intros [->|[s ->]]; [by left|].
  destruct (Prim2SF y) as [sy|sy| |sy m e]; cbn; eauto.
Qed.

Lemma nan_or_inf_add_r x y : nan_or_inf y -> nan_or_inf (x + y).
Proof.
  unfold nan_or_inf. rewrite FloatAxioms.add_spec. intros [->|[s ->]].
  - left. by destruct (Prim2SF x).
  - destruct (Prim2SF x) as [sx|sx| |sx m e]; cbn; eauto.
    destruct sx, s; eauto.
Qed.

Lemma nan_or_inf_div x y : nan_or_inf x -> nan_or_inf y -> is_NaN (x / y).
Proof.
  unfold nan_or_inf, is_NaN. rewrite FloatAxioms.div_spec.
  intros [->|[s ->]] [->|[s' ->]]; done.
Qed.

Lemma is_NaN_sqrt x : is_NaN x -> is_NaN (PrimFloat.sqrt x).
Proof. unfold is_NaN. rewrite FloatAxioms.sqrt_spec. by intros ->. Qed.

Lemma is_NaN_mul_l x y : is_NaN x -> is_NaN (x * y).
Proof. unfold is_NaN. rewrite FloatAxioms.mul_spec. by intros ->. Qed.

Lemma is_NaN_mul_r x y : is_NaN y -> is_NaN (x * y).
Proof. unfold is_NaN. rewrite FloatAxioms.mul_spec. intros ->. by destruct (Prim2SF x). Qed.

Lemma is_NaN_sub_l x y : is_NaN x -> is_NaN (x - y).
Proof. unfold is_NaN. rewrite FloatAxioms.sub_spec. by intros ->. Qed.

Lemma is_NaN_add_l x y : is_NaN x -> is_NaN (x + y).
Proof. unfold is_NaN. rewrite FloatAxioms.add_spec. by intros ->. Qed.

Lemma is_NaN_add_r x y : is_NaN y -> is_NaN (x + y).
Proof. unfold is_NaN. rewrite FloatAxioms.add_spec. intros ->. by destruct (Prim2SF x). Qed.

(** A cell times a NaN factor, and a NaN cell times any factor. *)
Lemma cscale_by_NaN c x :
  is_NaN x -> is_NaN (cscale c x).1 /\ is_NaN (cscale c x).2.
Proof.
  intros H. unfold cscale, cmul. cbn [fst snd]. split.
  - by apply is_NaN_sub_l, is_NaN_mul_r.
  - by apply is_NaN_add_r, is_NaN_mul_r.
Qed.

Lemma cscale_of_NaN c x :
  is_NaN c.1 /\ is_NaN c.2 -> is_NaN (cscale c x).1 /\ is_NaN (cscale c x).2.
Proof.
  intros [H1 H2]. unfold cscale, cmul. cbn [fst snd]. split.
  - by apply is_NaN_sub_l, is_NaN_mul_l.
  - by apply is_NaN_add_l, is_NaN_mul_l.
Qed.

End FloatFacts.

Lemma get3_map3 f csi i j k : get3 (map3 f csi) i j k = f <$> get3 csi i j k.
Proof.
  unfold get3, map3.
  change (map (map (map f)) csi) with (map (map f) <$> csi).
  rewrite list_lookup_fmap. destruct (csi !! i) as [plane|]; [|done]. cbn.
  change (map (map f) plane) with (map f <$> plane).
  rewrite list_lookup_fmap. destruct (plane !! j) as [row|]; [|done]. cbn.
  change (map f row) with (f <$> row). by rewrite list_lookup_fmap.
Qed.

(** Without a guard, a matrix whose power compares equal to zero is scaled
    by NaN: [scale] is infinite or NaN, so is the total noise power, and
    their quotient is NaN. *)
Lemma scale_csi_entry_zero_power db_pow dbinv csi hdr i j k c :
  PrimFloat.eqb (csi_power csi) 0 = true ->
  get3 (scale_csi_entry db_pow dbinv csi hdr) i j k = Some c ->
  is_NaN c.1 /\ is_NaN c.2.
Proof.
  intros Hz Hc.
  assert (nan_or_inf (scale_of db_pow dbinv csi hdr)) as Hs.
  { unfold scale_of. by apply div_by_zero, is_zero_div_30, eqb_0_is_zero. }
  assert (is_NaN (PrimFloat.sqrt
                    (scale_of db_pow dbinv csi hdr
                     / total_noise_pwr_of dbinv
                         (scale_of db_pow dbinv csi hdr) hdr))) as Hf.
  { apply is_NaN_sqrt, nan_or_inf_div; [done|].
    unfold total_noise_pwr_of. by apply nan_or_inf_add_r, nan_or_inf_mul. }
  unfold scale_csi_entry in Hc.
  destruct (n_tx hdr =? 2); [|destruct (n_tx hdr =? 3)];
    rewrite ?get3_map3 in Hc.
  - destruct (get3 csi i j k) as [c0|]; [|done]. cbn in Hc.
    injection Hc as <-. by apply cscale_of_NaN, cscale_by_NaN.
  - destruct (get3 csi i j k) as [c0|]; [|done]. cbn in Hc.
    injection Hc as <-. by apply cscale_of_NaN, cscale_by_NaN.
  - destruct (get3 csi i j k) as [c0|]; [|done]. cbn in Hc.
    injection Hc as <-. by apply cscale_by_NaN.
Qed.

(** C5, as the code has it. When the raw array decoded from a record has a
    CSI power that compares equal to zero, [read_bfee] with scaling raises
    nothing and reports no error: it returns the array [scale_csi_entry]
    computes, with the division by the zero power carried out in IEEE
    arithmetic, and every cell of that array has a NaN real part and a NaN
    imaginary part, whatever the header and the decibel conversions are. *)
Theorem zero_power_scales_to_nan
    (db_pow dbinv : float -> float) (mem : nat -> nat -> nat -> complex)
    (hdr : header) (data : list byte) (perm : list Z) (raw : matrix) :
  payload_length hdr = Z.of_nat (length data) ->
  fill_csi mem hdr data perm = Ok raw ->
  PrimFloat.eqb (csi_power raw) 0 = true ->
  read_bfee db_pow dbinv mem hdr data perm true
  = Ok (Some (scale_csi_entry db_pow dbinv raw hdr))
  /\ forall i j k c,
      get3 (scale_csi_entry db_pow dbinv raw hdr) i j k = Some c ->
      PrimFloat.is_nan c.1 = true /\ PrimFloat.is_nan c.2 = true.
Proof.
  intros Hlen Hraw Hz. split.
  - unfold read_bfee. rewrite Hlen, Z.eqb_refl, Hraw. done.
  - intros i j k c Hc.
    destruct (scale_csi_entry_zero_power _ _ _ _ _ _ _ _ Hz Hc).
    split; by apply is_NaN_is_nan.
Qed.

(** The record of the specification's own scenario: one antenna pair and an
    all-zero payload of the right length. *)
Lemma zero_power_scales_to_nan_witness :
  read_bfee db_stand_in db_stand_in (stale_heap 0) (plain_header 0 72)
            zero_payload [0; 1; 2] true
  = Ok (Some (scale_csi_entry db_stand_in db_stand_in zero_matrix
                              (plain_header 0 72)))
  /\ forall i j k c,
      get3 (scale_csi_entry db_stand_in db_stand_in zero_matrix
                            (plain_header 0 72)) i j k = Some c ->
      PrimFloat.is_nan c.1 = true /\ PrimFloat.is_nan c.2 = true.
Proof.
  apply (zero_power_scales_to_nan db_stand_in db_stand_in (stale_heap 0)
           (plain_header 0 72) zero_payload [0; 1; 2] zero_matrix).
  - reflexivity.
  - vm_compute. reflexivity.
  - vm_compute. reflexivity.
Defined.

(** C5 as the specification words it fails: there is no guard and no error.
    The all-zero payload of one antenna pair decodes to the all-zero array,
    whose power is 0; with scaling, [read_bfee] returns an array, and its
    cell [(0, 0, 0)] is NaN + NaN j whatever the decibel conversions are. *)
Lemma zero_power_guard_counterexample :
  (read_bfee db_stand_in db_stand_in (stale_heap 0) (plain_header 0 72)
             zero_payload [0; 1; 2] false = Ok (Some zero_matrix)
   /\ csi_power zero_matrix = 0%float)
  /\ (forall db_pow dbinv : float -> float,
        exists m c,
          read_bfee db_pow dbinv (stale_heap 0) (plain_header 0 72)
                    zero_payload [0; 1; 2] true = Ok (Some m)
          /\ get3 m 0 0 0 = Some c
          /\ PrimFloat.is_nan c.1 = true /\ PrimFloat.is_nan c.2 = true).
Proof.
  split; [split; vm_compute; reflexivity|].
  intros db_pow dbinv.
  assert (fill_csi (stale_heap 0) (plain_header 0 72) zero_payload [0; 1; 2]
          = Ok zero_matrix) as Hraw by (vm_compute; reflexivity).
  assert (PrimFloat.eqb (csi_power zero_matrix) 0 = true) as Hz
    by (vm_compute; reflexivity).
  unfold read_bfee.
  change (negb (payload_length (plain_header 0 72)
                =? Z.of_nat (length zero_payload))) with false.
  cbn match. rewrite Hraw. cbn [bind].
  destruct (get3 (scale_csi_entry db_pow dbinv zero_matrix (plain_header 0 72))
                 0 0 0) as [c|] eqn:Hc.
  - exists (scale_csi_entry db_pow dbinv zero_matrix (plain_header 0 72)), c.
    split; [done|]. split; [done|].
    destruct (scale_csi_entry_zero_power db_pow dbinv zero_matrix
                (plain_header 0 72) 0 0 0 c Hz Hc).
    split; by apply is_NaN_is_nan.
  - exfalso. revert Hc. unfold scale_csi_entry.
    change (n_tx (plain_header 0 72) =? 2) with false.
    change (n_tx (plain_header 0 72) =? 3) with false.
    cbn match. by rewrite get3_map3.
Qed.

(** ** Records that read past the end (claim C6) *)

Section OverrunFacts.

Variable db_pow : float -> float.
Variable dbinv : float -> float.
Variable heap : Z -> nat -> nat -> nat -> complex.

(** Under the guard of the loop the size and the code are there to read. *)
Lemma scan_reads data s :
  0 <= cursor s -> scan_guard data s = true ->
  exists size code,
    SIZE_STRUCT (slice data (cursor s) (cursor s + 2)) = Ok size
    /\ CODE_STRUCT (slice data (cursor s + 2) (cursor s + 3)) = Ok code.
Proof.
  unfold scan_guard. intros H0 Hg. apply Z.gtb_lt in Hg.
  destruct (SIZE_STRUCT_ok (slice data (cursor s) (cursor s + 2)))
    as (size & -> & _); [rewrite length_slice by done; lia|].
  destruct (CODE_STRUCT_ok (slice data (cursor s + 2) (cursor s + 3)))
    as (code & ->); [rewrite length_slice by lia; lia|].
  by eexists _, _.
Qed.

(** A pass over a record that would read past the end of the buffer returns,
    and leaves the cursor past the end. *)
Lemma scan_body_overrun data scaled s size :
  0 <= cursor s -> scan_guard data s = true ->
  SIZE_STRUCT (slice data (cursor s) (cursor s + 2)) = Ok size ->
  Z.of_nat (length data) < cursor s + 3 + (size - 1) ->
  exists s',
    scan_body db_pow dbinv heap data scaled s = Ok s'
    /\ scan_guard data s' = false
    /\ expected_frames (ret_data s') = expected_frames (ret_data s) + 1.
Proof.
  intros H0 Hg Hsize Hover.
  destruct (scan_reads data s H0 Hg) as (size' & code & Hsize' & Hcode).
  assert (size' = size) as -> by congruence.
  assert (exists s', scan_body db_pow dbinv heap data scaled s = Ok s') as [s' Hb].
  { unfold scan_body. rewrite Hsize, Hcode. cbn [bind].
    destruct (code =? VALID_BEAMFORMING_MEASUREMENT); [|by eexists].
    unfold valid_block. unfold scan_guard in Hg. apply Z.gtb_lt in Hg.
    destruct (HEADER_STRUCT_ok
                (take 20 (slice data (cursor s + 3) (cursor s + 3 + size - 1))))
      as (hdr & ->).
    { rewrite length_take, length_slice by lia. lia. }
    cbn [bind].
    destruct (read_bfee_returns db_pow dbinv
                (heap (expected_frames (ret_data s))) hdr
                (drop 20 (slice data (cursor s + 3) (cursor s + 3 + size - 1)))
                (perm_of (n_rx hdr) (antenna_sel hdr)) scaled) as (r & -> & _).
    cbn [bind]. destruct r; by eexists. }
  exists s'. split; [done|].
  apply scan_body_adds in Hb as (_ & sz & _ & Hsz & _ & Hc & _ & _ & _ & He).
  assert (sz = size) as -> by congruence.
  split; [|done]. unfold scan_guard.
  destruct (Z.gtb_spec (Z.of_nat (length data) - cursor s') 100); [lia|done].
Qed.

(** Then the loop ends: the scan returns what this last pass left. *)
Lemma scan_loop_overrun data scaled s size fuel :
  0 <= cursor s -> scan_guard data s = true ->
  SIZE_STRUCT (slice data (cursor s) (cursor s + 2)) = Ok size ->
  Z.of_nat (length data) < cursor s + 3 + (size - 1) ->
  exists s',
    scan_body db_pow dbinv heap data scaled s = Ok s'
    /\ scan_loop db_pow dbinv heap (S fuel) data scaled s
       = Some (Ok (ret_data s'))
    /\ expected_frames (ret_data s') = expected_frames (ret_data s) + 1.
Proof.
  intros H0 Hg Hsize Hover.
  destruct (scan_body_overrun data scaled s size H0 Hg Hsize Hover)
    as (s' & Hb & Hg' & He).
  exists s'. split; [done|]. split; [|done].
  cbn [scan_loop]. rewrite Hg, Hb. destruct fuel; cbn [scan_loop]; by rewrite Hg'.
Qed.

(** What that last pass emits. The slice of the record is clamped to the
    bytes that are left: the header is read from the 20 bytes after the
    code, the payload is every byte after them, and the frame is appended
    exactly when the code is 187 and the header announces that many
    bytes. *)
Lemma scan_body_overrun_frames data scaled s size s' :
  0 <= cursor s -> scan_guard data s = true ->
  SIZE_STRUCT (slice data (cursor s) (cursor s + 2)) = Ok size ->
  Z.of_nat (length data) < cursor s + 3 + (size - 1) ->
  scan_body db_pow dbinv heap data scaled s = Ok s' ->
  exists code,
    CODE_STRUCT (slice data (cursor s + 2) (cursor s + 3)) = Ok code
    /\ (code <> VALID_BEAMFORMING_MEASUREMENT ->
        frames (ret_data s') = frames (ret_data s)
        /\ timestamps (ret_data s') = timestamps (ret_data s))
    /\ (code = VALID_BEAMFORMING_MEASUREMENT ->
        exists hdr,
          HEADER_STRUCT (take 20 (drop (Z.to_nat (cursor s + 3)) data)) = Ok hdr
          /\ (payload_length hdr <> Z.of_nat (length data) - (cursor s + 23) ->
              frames (ret_data s') = frames (ret_data s)
              /\ timestamps (ret_data s') = timestamps (ret_data s))
          /\ (payload_length hdr = Z.of_nat (length data) - (cursor s + 23) ->
              exists m,
                read_bfee db_pow dbinv (heap (expected_frames (ret_data s))) hdr
                          (drop (Z.to_nat (cursor s + 23)) data)
                          (perm_of (n_rx hdr) (antenna_sel hdr)) scaled
                = Ok (Some m)
                /\ frames (ret_data s')
                   = frames (ret_data s)
                     ++ [{| frame_header := hdr; frame_csi := m |}]
                /\ timestamps (ret_data s')
                   = timestamps (ret_data s)
                     ++ relative_timestamps (initial_timestamp s)
                                            [seconds hdr])).
Proof.
  intros H0 Hg Hsize Hover.
  destruct (scan_reads data s H0 Hg) as (size' & code & Hsize' & Hcode).
  assert (size' = size) as -> by congruence.
  unfold scan_guard in Hg. apply Z.gtb_lt in Hg.
  assert (slice data (cursor s + 3) (cursor s + 3 + size - 1)
          = drop (Z.to_nat (cursor s + 3)) data) as Hclamp.
  { unfold slice. apply take_ge. rewrite length_drop. lia. }
  assert (drop 20 (drop (Z.to_nat (cursor s + 3)) data)
          = drop (Z.to_nat (cursor s + 23)) data) as Hpay.
  { rewrite drop_drop. f_equal. lia. }
  assert (Z.of_nat (length (drop (Z.to_nat (cursor s + 23)) data))
          = Z.of_nat (length data) - (cursor s + 23)) as Hleft.
  { rewrite length_drop. lia. }
  unfold scan_body. rewrite Hsize, Hcode. cbn [bind].
  intros Hb. exists code. split; [done|].
  destruct (Z.eqb_spec code VALID_BEAMFORMING_MEASUREMENT) as [->|Hne].
  - split; [done|]. intros _. revert Hb.
    unfold valid_block. rewrite Hclamp, Hpay.
    destruct (HEADER_STRUCT_ok (take 20 (drop (Z.to_nat (cursor s + 3)) data)))
      as (hdr & Hh); [rewrite length_take, length_drop; lia|].
    rewrite Hh. cbn [bind]. intros Hb. exists hdr. split; [done|]. split.
    + intros Hlen. rewrite read_bfee_mismatch in Hb by (by rewrite Hleft).
      cbn in Hb. by injection Hb as <-.
    + intros Hlen. rewrite <- Hleft in Hlen.
      destruct (read_bfee_match db_pow dbinv
                  (heap (expected_frames (ret_data s))) hdr
                  (drop (Z.to_nat (cursor s + 23)) data)
                  (perm_of (n_rx hdr) (antenna_sel hdr)) scaled Hlen)
        as (csi & _ & Hr).
      rewrite Hr in Hb. cbn in Hb. injection Hb as <-.
      eexists. split; [exact Hr|]. by cbn.
  - cbn in Hb. injection Hb as <-. split; [done|]. by intros ->.
Qed.

(** A buffer whose records all carry another code than 187: every pass
    only counts the record. *)
Lemma scan_loop_all_invalid data scaled fuel : forall s,
  0 <= cursor s ->
  Z.of_nat (length data) - cursor s - 100 <= Z.of_nat fuel ->
  Forall (fun code => code <> VALID_BEAMFORMING_MEASUREMENT)
         (record_codes fuel data (cursor s)) ->
  scan_loop db_pow dbinv heap fuel data scaled s
  = Some (Ok {| frames := frames (ret_data s);
                timestamps := timestamps (ret_data s);
                expected_frames :=
                  expected_frames (ret_data s)
                  + Z.of_nat (length (record_codes fuel data (cursor s))) |}).
Proof.
  induction fuel as [|fuel IH]; intros s H0 Hf; cbn [scan_loop record_codes];
    fold (scan_guard data s); destruct (scan_guard data s) eqn:Hg.
  - unfold scan_guard in Hg. apply Z.gtb_lt in Hg. lia.
  - intros _. cbn. rewrite Z.add_0_r. by destruct (ret_data s).
  - destruct (scan_reads data s H0 Hg) as (size & code & Hsize & Hcode).
    rewrite Hsize, Hcode. intros Hall.
    apply Forall_cons in Hall as [Hcode' Hall].
    unfold scan_body. rewrite Hsize, Hcode. cbn [bind].
    destruct (Z.eqb_spec code VALID_BEAMFORMING_MEASUREMENT); [done|].
    cbn [bind fst snd].
    pose proof (SIZE_STRUCT_range _ _ Hsize).
    rewrite IH; cbn [cursor ret_data frames timestamps expected_frames];
      [|lia|lia|done].
    do 3 f_equal. cbn [length]. lia.
  - intros _. cbn. rewrite Z.add_0_r. by destruct (ret_data s).
Qed.

End OverrunFacts.

(** C6, as the code has it. For every buffer: (1) a record whose size field
    would read past the end of the buffer never makes the scan raise; the
    slice is clamped to the bytes that are left, the pass over the record
    returns like any other pass and counts the record, and the scan then
    returns, this pass being its last. The record is processed like any
    other: with another code than 187 it adds no frame and no timestamp;
    with the code 187 its header is read from the 20 bytes after the code,
    and its frame (this header, with the array [read_bfee] decodes from all
    the bytes left after the header) and its timestamp are appended exactly
    when the header's [payload_length] is the number of bytes left after
    the header; (2) when no record carries the code 187, the scan returns
    no frame and no timestamp, and the counter is the number of records. *)
Theorem overrun_record_is_last_pass
    (db_pow dbinv : float -> float) (heap : Z -> nat -> nat -> nat -> complex)
    (data : list byte) (scaled : bool) :
  (forall s size fuel,
      0 <= cursor s -> scan_guard data s = true ->
      SIZE_STRUCT (slice data (cursor s) (cursor s + 2)) = Ok size ->
      Z.of_nat (length data) < cursor s + 3 + (size - 1) ->
      exists s',
        scan_body db_pow dbinv heap data scaled s = Ok s'
        /\ scan_loop db_pow dbinv heap (S fuel) data scaled s
           = Some (Ok (ret_data s'))
        /\ expected_frames (ret_data s') = expected_frames (ret_data s) + 1
        /\ exists code,
            CODE_STRUCT (slice data (cursor s + 2) (cursor s + 3)) = Ok code
            /\ (code <> VALID_BEAMFORMING_MEASUREMENT ->
                frames (ret_data s') = frames (ret_data s)
                /\ timestamps (ret_data s') = timestamps (ret_data s))
            /\ (code = VALID_BEAMFORMING_MEASUREMENT ->
                exists hdr,
                  HEADER_STRUCT (take 20 (drop (Z.to_nat (cursor s + 3)) data))
                  = Ok hdr
                  /\ (payload_length hdr
                      <> Z.of_nat (length data) - (cursor s + 23) ->
                      frames (ret_data s') = frames (ret_data s)
                      /\ timestamps (ret_data s') = timestamps (ret_data s))
                  /\ (payload_length hdr
                      = Z.of_nat (length data) - (cursor s + 23) ->
                      exists m,
                        read_bfee db_pow dbinv
                                  (heap (expected_frames (ret_data s))) hdr
                                  (drop (Z.to_nat (cursor s + 23)) data)
                                  (perm_of (n_rx hdr) (antenna_sel hdr)) scaled
                        = Ok (Some m)
                        /\ frames (ret_data s')
                           = frames (ret_data s)
                             ++ [{| frame_header := hdr; frame_csi := m |}]
                        /\ timestamps (ret_data s')
                           = timestamps (ret_data s)
                             ++ relative_timestamps (initial_timestamp s)
                                                    [seconds hdr])))
  /\
  (Forall (fun code => code <> VALID_BEAMFORMING_MEASUREMENT)
          (record_codes (length data) data 0) ->
   read_file db_pow dbinv heap data scaled
   = Some (Ok {| frames := [];
                 timestamps := [];
                 expected_frames :=
                   Z.of_nat (length (record_codes (length data) data 0)) |})).
Proof.
  split.
  - intros s size fuel H0 Hg Hsize Hover.
    destruct (scan_loop_overrun db_pow dbinv heap data scaled s size fuel
                H0 Hg Hsize Hover) as (s' & Hb & Hl & He).
    exists s'. split_and!; try done.
    by apply (scan_body_overrun_frames db_pow dbinv heap data scaled s size).
  - intros Hall. unfold read_file.
    rewrite scan_loop_all_invalid; cbn [scan_start cursor ret_data]; try done.
    lia.
Qed.

(** The record of [overrun_file] announces 65535 bytes where 101 are left,
    and its header announces the 81 bytes that follow it: the pass over it
    appends its frame, one record is counted, and the scan returns. The
    record of [invalid_code_file] has the code 0xc1: no frame, one record
    counted. *)
Lemma overrun_record_is_last_pass_witness :
  (exists s' m,
      scan_body db_stand_in db_stand_in stale_heap overrun_file false scan_start
      = Ok s'
      /\ scan_loop db_stand_in db_stand_in stale_heap 104 overrun_file false
                   scan_start
         = Some (Ok (ret_data s'))
      /\ expected_frames (ret_data s') = 1
      /\ read_bfee db_stand_in db_stand_in (stale_heap 0) (plain_header 7 81)
                   (repeat x00 81) [0; 1; 2] false
         = Ok (Some m)
      /\ frames (ret_data s')
         = [{| frame_header := plain_header 7 81; frame_csi := m |}])
  /\ read_file db_stand_in db_stand_in stale_heap invalid_code_file false
     = Some (Ok {| frames := []; timestamps := []; expected_frames := 1 |}).
Proof.
  split.
  - destruct (proj1 (overrun_record_is_last_pass db_stand_in db_stand_in
                       stale_heap overrun_file false)
                    scan_start 65535 103%nat ltac:(vm_compute; discriminate)
                    eq_refl eq_refl ltac:(vm_compute; reflexivity))
      as (s' & Hb & Hl & He & code & Hcode & _ & Hvalid).
    assert (Ok VALID_BEAMFORMING_MEASUREMENT = Ok code :> result Z) as [= <-]
      by (rewrite <- Hcode; reflexivity).
    destruct (Hvalid eq_refl) as (hdr & Hh & _ & Hemit).
    assert (Ok (plain_header 7 81) = Ok hdr :> result header) as [= <-]
      by (rewrite <- Hh; reflexivity).
    destruct (Hemit ltac:(vm_compute; reflexivity)) as (m & Hr & Hf & _).
    exists s', m. split; [exact Hb|]. split; [exact Hl|]. split; [exact He|].
    split; [exact Hr|exact Hf].
  - refine (proj2 (overrun_record_is_last_pass db_stand_in db_stand_in stale_heap
                     invalid_code_file false) _).
    vm_compute. repeat constructor. discriminate.
Defined.

(** C6 as the specification words it fails twice. The record of
    [overrun_file] would read past the end, and it is not taken for the end
    of the stream: it is decoded from the bytes that are left and its frame
    is emitted. And an error does leave the scan: the record of
    [short_record_file] has the valid code and announces 5 bytes, too few
    for a header, and [read_file] raises [struct.error]. *)
Lemma overrun_counterexample :
  (exists r f,
      SIZE_STRUCT (slice overrun_file 0 2) = Ok 65535
      /\ Z.of_nat (length overrun_file) < 0 + 3 + (65535 - 1)
      /\ read_file db_stand_in db_stand_in stale_heap overrun_file false
         = Some (Ok r)
      /\ frames r = [f]
      /\ frame_header f = plain_header 7 81)
  /\ read_file db_stand_in db_stand_in stale_heap short_record_file false
     = Some (Raise StructError).
Proof.
  split.
  - eexists. eexists. split; [reflexivity|]. split; [vm_compute; reflexivity|].
    split; [vm_compute; reflexivity|]. split; reflexivity.
  - vm_compute. reflexivity.
Qed.

(** ** Decoding a packed payload (claim C2) *)

Lemma b2z_z2b z : b2z (z2b z) = z mod 256.
Proof.
  unfold b2z, z2b.
  destruct (Byte.of_N (Z.to_N (z mod 256))) as [b|] eqn:E.
  - apply Byte.to_of_N in E. rewrite E. lia.
  - apply Byte.of_N_None_iff in E. lia.
Qed.









Section PackFacts.

Variables N M : nat.

Lemma mixed_radix a b q q' P :
  0 <= q < P -> 0 <= q' -> a < b -> a * P + q + 1 <= b * P + q'.
Proof. intros Hq Hq' Hab. nia. Qed.




Lemma pos_nonneg i j k : 3 <= pos N M i j k.
Proof. unfold pos. nia. Qed.


(** The last sample ends where the payload ends, two bits into its last
    byte. *)
Lemma pos_in_packed i j k :
  (i < 30)%nat -> (j < N)%nat -> (k < M)%nat ->
  pos N M i j k / 8 + 2 < Z.of_nat (packed_length N M).
Proof.
  intros Hi Hj Hk. unfold packed_length.
  assert (pos N M i j k + 16 <= 30 * (3 + 16 * (Z.of_nat N * Z.of_nat M))).
  { unfold pos.
    pose proof (mixed_radix (Z.of_nat j) (Z.of_nat N) (Z.of_nat k) 0 (Z.of_nat M)).
    pose proof (mixed_radix (Z.of_nat i) 30
                  (Z.of_nat j * Z.of_nat M + Z.of_nat k) 0
                  (Z.of_nat N * Z.of_nat M)).
    nia. }
  pose proof (pos_nonneg i j k).
  set (P := Z.of_nat N * Z.of_nat M) in *. lia.
Qed.

End PackFacts.

Section PackBits.

Variables N M : nat.
Variable exponent : nat -> Z.
Variable samples : nat -> nat -> nat -> Z * Z.





End PackBits.


(** When [perm\[j\]] is a row of the array, that row is the one written. *)
Lemma row_of_perm perm N j p :
  perm !! j = Some p -> (Z.to_nat p < N)%nat -> row_of perm N j = Z.to_nat p.
Proof.
  intros Hp Hlt. unfold row_of. rewrite Hp.
  by destruct (Nat.ltb_spec (Z.to_nat p) N); [|lia].
Qed.



(** * More of the reader *)

(** ** [read_bfee] and its [try] statement *)

Lemma int8_range x : -128 <= int8 x < 128.
Proof. unfold int8. destruct (Z.ltb_spec (x mod 256) 128); lia. Qed.

(** X1. [read_bfee] raises neither [IndexError] nor [struct.error], for
    every header whose antenna counts are not negative (what the format [B]
    of the header gives), every payload, every permutation list without a
    negative entry (too short, or with entries that are no row) and either
    value of the scaling flag: the test before [break] keeps every read
    inside the payload and the handler of [IndexError] always finds its
    cell. It returns [None] exactly when the header's [payload_length] is
    not the length of the payload. The decibel conversions [db] and [dbinv]
    of [CSIKit.util.matlab] are taken as functions that return. *)
Theorem read_bfee_never_raises
    (db_pow dbinv : float -> float) (mem : nat -> nat -> nat -> complex)
    (hdr : header) (data : list byte) (perm : list Z) (scaled : bool) :
  0 <= n_rx hdr -> 0 <= n_tx hdr -> Forall (fun p => 0 <= p) perm ->
  exists r,
    read_bfee db_pow dbinv mem hdr data perm scaled = Ok r
    /\ (r = None <-> payload_length hdr <> Z.of_nat (length data)).
Proof.
  intros _ _ _.
  destruct (Z.eq_dec (payload_length hdr) (Z.of_nat (length data))) as [E|E].
  - destruct (read_bfee_match db_pow dbinv mem hdr data perm scaled E)
      as (csi & _ & ->).
    eexists. split; [reflexivity|]. split; [done|]. by intros [].
  - rewrite read_bfee_mismatch by done. by exists None.
Qed.

(** Two receive antennas and the permutation list [7]: too short for
    antenna 1, and 7 is no row. An array is returned. *)
Lemma read_bfee_never_raises_witness :
  exists r,
    read_bfee db_stand_in db_stand_in (stale_heap 0) short_header short_payload
              [7] false = Ok r
    /\ (r = None
        <-> payload_length short_header <> Z.of_nat (length short_payload)).
Proof.
  apply (read_bfee_never_raises db_stand_in db_stand_in (stale_heap 0)
           short_header short_payload [7] false).
  - cbn. lia.
  - cbn. lia.
  - repeat constructor. lia.
Defined.

(** X2. The assignment under [try], for a cell [(i, j, k)] of the array
    and a permutation list whose entry for [j], if there is one, is not
    negative (the entries the reader builds are 0 to 3): it never raises;
    the value goes to row [perm\[j\]] when the list has an entry for [j]
    that is a row of the array, and to row [j] otherwise; no other cell
    changes and the shape is kept. *)
Theorem store_lands_in_one_cell
    (csi : matrix) (perm : list Z) (d1 d2 i j k : nat) (v : complex) :
  dims csi 30 d1 d2 -> (i < 30)%nat -> (j < d1)%nat -> (k < d2)%nat ->
  (forall p, perm !! j = Some p -> 0 <= p) ->
  exists csi',
    store csi perm i j k v = Ok csi'
    /\ dims csi' 30 d1 d2
    /\ get3 csi' i (match perm !! j with
                    | Some p => if (Z.to_nat p <? d1)%nat then Z.to_nat p else j
                    | None => j
                    end) k = Some v
    /\ forall i' r' k',
        (i', r', k') <> (i, match perm !! j with
                            | Some p =>
                                if (Z.to_nat p <? d1)%nat then Z.to_nat p else j
                            | None => j
                            end, k) ->
        get3 csi' i' r' k' = get3 csi i' r' k'.
Proof.
  intros Hd Hi Hj Hk _. rewrite (store_row_of csi perm d1 d2) by done.
  fold (row_of perm d1 j).
  destruct (set3_inside csi 30 d1 d2 i (row_of perm d1 j) k v)
    as (csi' & -> & Hd' & Hget); try done; [by apply row_of_lt|].
  exists csi'. split_and!; try done.
  - by rewrite Hget, !Nat.eqb_refl.
  - intros i' r' k' Hne. rewrite Hget.
    destruct (Nat.eqb_spec i' i), (Nat.eqb_spec r' (row_of perm d1 j)),
      (Nat.eqb_spec k' k); cbn [andb]; try done.
    subst. done.
Qed.

(** With the permutation [3, 1, 2] and three rows, the entry 3 of antenna 0
    is no row: the value is stored in row 0. *)
Lemma store_lands_in_one_cell_witness :
  exists csi',
    store (np_empty (stale_heap 0) 30 3 1) [3; 1; 2] 4 0 0 (1%float, 2%float)
    = Ok csi'
    /\ dims csi' 30 3 1
    /\ get3 csi' 4 0 0 = Some (1%float, 2%float)
    /\ forall i' r' k',
        (i', r', k') <> (4, 0, 0)%nat ->
        get3 csi' i' r' k' = get3 (np_empty (stale_heap 0) 30 3 1) i' r' k'.
Proof.
  apply (store_lands_in_one_cell (np_empty (stale_heap 0) 30 3 1) [3; 1; 2]
           3 1 4 0 0 (1%float, 2%float)); try lia.
  - apply np_empty_dims.
  - intros p [= <-]. lia.
Defined.

(** X3. A row of the array to which the permutation sends no receive
    antenna is never written: after [read_bfee], whatever the payload holds,
    its cells keep what the memory from [np.empty] held. *)
Theorem unmapped_row_keeps_allocation
    (db_pow dbinv : float -> float) (mem : nat -> nat -> nat -> complex)
    (hdr : header) (data : list byte) (perm : list Z) (r : nat) :
  payload_length hdr = Z.of_nat (length data) ->
  (r < Z.to_nat (n_rx hdr))%nat ->
  (forall j, (j < Z.to_nat (n_rx hdr))%nat ->
             row_of perm (Z.to_nat (n_rx hdr)) j <> r) ->
  exists csi,
    read_bfee db_pow dbinv mem hdr data perm false = Ok (Some csi)
    /\ forall i k,
        (i < 30)%nat -> (k < Z.to_nat (n_tx hdr))%nat ->
        get3 csi i r k = Some (mem i r k).
Proof.
  intros Hlen Hr Hrow. unfold read_bfee. rewrite Hlen, Z.eqb_refl. cbn [negb].
  destruct (fill_csi_walked mem hdr data perm) as (csi & -> & _ & Hget).
  exists csi. cbn [bind]. split; [done|].
  intros i k Hi Hk. rewrite Hget by done. unfold walked.
  destruct (last_writer _ _ _ _ _ _ _ _ _) as [j|] eqn:E; [|done].
  apply last_writer_Some in E as [Hj W]. unfold writes in W.
  apply andb_prop in W as [W _]. apply andb_prop in W as [W _].
  apply Nat.eqb_eq in W. destruct (Hrow j); [lia|done].
Qed.

(** With [antenna_sel = 0] and three receive antennas the permutation is
    [0, 0, 0]: row 1 keeps the content of the memory. *)
Lemma unmapped_row_keeps_allocation_witness :
  exists csi,
    read_bfee db_stand_in db_stand_in (stale_heap 0) same_row_header
              short_payload (perm_of 3 0) false = Ok (Some csi)
    /\ forall i k,
        (i < 30)%nat -> (k < 1)%nat ->
        get3 csi i 1 k = Some (1.5%float, (-2.5)%float).
Proof.
  apply (unmapped_row_keeps_allocation db_stand_in db_stand_in (stale_heap 0)
           same_row_header short_payload (perm_of 3 0) 1).
  - reflexivity.
  - cbn. lia.
  - intros j Hj. cbn in Hj.
    destruct j as [|[|[|j]]]; [| | |lia]; vm_compute; discriminate.
Defined.

(** X5. Every cell of the raw array either keeps the content of the memory
    or holds two integers between -128 and 127, the real and the imaginary
    part of a sample. *)
Theorem raw_cells_are_signed_bytes
    (db_pow dbinv : float -> float) (mem : nat -> nat -> nat -> complex)
    (hdr : header) (data : list byte) (perm : list Z) :
  payload_length hdr = Z.of_nat (length data) ->
  exists csi,
    read_bfee db_pow dbinv mem hdr data perm false = Ok (Some csi)
    /\ forall i r k,
        (i < 30)%nat -> (r < Z.to_nat (n_rx hdr))%nat ->
        (k < Z.to_nat (n_tx hdr))%nat ->
        get3 csi i r k = Some (mem i r k)
        \/ exists re im,
             -128 <= re < 128 /\ -128 <= im < 128
             /\ get3 csi i r k = Some (complex_of re im).
Proof.
  intros Hlen. unfold read_bfee. rewrite Hlen, Z.eqb_refl. cbn [negb].
  destruct (fill_csi_walked mem hdr data perm) as (csi & -> & _ & Hget).
  exists csi. cbn [bind]. split; [done|].
  intros i r k Hi Hr Hk. rewrite Hget by done. unfold walked.
  destruct (last_writer _ _ _ _ _ _ _ _ _) as [j|]; [right|by left].
  unfold sample_at, signed_bits. eexists _, _.
  split; [apply int8_range|]. split; [apply int8_range|done].
Qed.

(** The cell of subcarrier 0 of the short payload holds 64 + 96j. *)
Lemma raw_cells_are_signed_bytes_witness :
  exists csi,
    read_bfee db_stand_in db_stand_in (stale_heap 0) short_header short_payload
              [0; 1; 2] false = Ok (Some csi)
    /\ (get3 csi 0 0 0 = Some (stale_heap 0 0 0 0)%nat
        \/ exists re im,
             -128 <= re < 128 /\ -128 <= im < 128
             /\ get3 csi 0 0 0 = Some (complex_of re im)).
Proof.
  destruct (raw_cells_are_signed_bytes db_stand_in db_stand_in (stale_heap 0)
              short_header short_payload [0; 1; 2] eq_refl) as (csi & Hr & Hc).
  exists csi. split; [exact Hr|]. apply Hc; cbn; lia.
Defined.

(** X4. How many payload bytes fill the array: with a permutation that
    stores no two receive antennas in one row, a payload of at least
    [packed_length] bytes (30 subcarriers of [3 + 16 * n_rx * n_tx] bits, in
    whole bytes) gives every cell its decoded sample, and with any shorter
    payload the last cell [(29, n_rx - 1, n_tx - 1)] is left as the memory
    from [np.empty] held it. *)
Theorem full_payload_fills_the_array
    (db_pow dbinv : float -> float) (mem : nat -> nat -> nat -> complex)
    (hdr : header) (data : list byte) (perm : list Z) :
  payload_length hdr = Z.of_nat (length data) ->
  (forall j1 j2,
      (j1 < Z.to_nat (n_rx hdr))%nat -> (j2 < Z.to_nat (n_rx hdr))%nat ->
      row_of perm (Z.to_nat (n_rx hdr)) j1
      = row_of perm (Z.to_nat (n_rx hdr)) j2 -> j1 = j2) ->
  exists csi,
    read_bfee db_pow dbinv mem hdr data perm false = Ok (Some csi)
    /\ ((packed_length (Z.to_nat (n_rx hdr)) (Z.to_nat (n_tx hdr))
         <= length data)%nat ->
        forall i j k,
          (i < 30)%nat -> (j < Z.to_nat (n_rx hdr))%nat ->
          (k < Z.to_nat (n_tx hdr))%nat ->
          get3 csi i (row_of perm (Z.to_nat (n_rx hdr)) j) k
          = Some (sample_at data
                    (pos (Z.to_nat (n_rx hdr)) (Z.to_nat (n_tx hdr)) i j k)))
    /\ ((length data
         < packed_length (Z.to_nat (n_rx hdr)) (Z.to_nat (n_tx hdr)))%nat ->
        (0 < Z.to_nat (n_rx hdr))%nat -> (0 < Z.to_nat (n_tx hdr))%nat ->
        get3 csi 29 (row_of perm (Z.to_nat (n_rx hdr))
                            (Z.to_nat (n_rx hdr) - 1))
             (Z.to_nat (n_tx hdr) - 1)
        = Some (mem 29%nat
                    (row_of perm (Z.to_nat (n_rx hdr))
                            (Z.to_nat (n_rx hdr) - 1))
                    (Z.to_nat (n_tx hdr) - 1)%nat)).
Proof.
  intros Hlen Hinj. unfold read_bfee. rewrite Hlen, Z.eqb_refl. cbn [negb].
  destruct (fill_csi_walked mem hdr data perm) as (csi & -> & _ & Hget).
  exists csi. cbn [bind]. split; [done|].
  set (N := Z.to_nat (n_rx hdr)) in *. set (M := Z.to_nat (n_tx hdr)) in *.
  split.
  - intros Hfull i j k Hi Hj Hk.
    rewrite Hget; [|done|by apply row_of_lt|done].
    rewrite walked_one_writer by done.
    assert (in_reach data (pos N M i j k) = true) as ->; [|done].
    unfold in_reach. apply Z.ltb_lt.
    pose proof (pos_in_packed N M i j k Hi Hj Hk). lia.
  - intros Hshort HN HM.
    rewrite Hget; [|lia|apply row_of_lt; lia|lia].
    rewrite walked_one_writer by (done || lia).
    assert (in_reach data (pos N M 29 (N - 1) (M - 1)) = false) as ->; [|done].
    unfold in_reach. apply Z.ltb_ge.
    assert (pos N M 29 (N - 1) (M - 1) + 16
            = 30 * (3 + 16 * (Z.of_nat N * Z.of_nat M))) as Hlast.
    { unfold pos. rewrite !Nat2Z.inj_sub by lia. change (Z.of_nat 29) with 29.
      change (Z.of_nat 1) with 1. ring. }
    unfold packed_length in Hshort.
    set (P := Z.of_nat N * Z.of_nat M) in *.
    assert (0 <= P) by (unfold P; lia).
    lia.
Qed.

(** The 72 bytes of [ramp_payload] are what one antenna pair needs: every
    cell holds its sample. *)
Lemma full_payload_fills_the_array_witness :
  exists csi,
    read_bfee db_stand_in db_stand_in (stale_heap 0) (plain_header 0 72)
              ramp_payload [0; 1; 2] false = Ok (Some csi)
    /\ forall i j k,
        (i < 30)%nat -> (j < 1)%nat -> (k < 1)%nat ->
        get3 csi i (row_of [0; 1; 2] 1 j) k
        = Some (sample_at ramp_payload (pos 1 1 i j k)).
Proof.
  destruct (full_payload_fills_the_array db_stand_in db_stand_in (stale_heap 0)
              (plain_header 0 72) ramp_payload [0; 1; 2])
    as (csi & Hr & Hfull & _).
  - vm_compute. reflexivity.
  - intros j1 j2 _ _. by rewrite !row_of_default.
  - exists csi. split; [exact Hr|]. apply Hfull. vm_compute. lia.
Defined.

(** ** [read_bf_entry] *)

(** X6. [read_bf_entry] unpacks a header of 20 bytes from the slice
    [data\[4:25\]], which holds 21 bytes as soon as the packet has 25: for
    every packet whose length is not 24 it raises [struct.error], and for a
    packet of 24 bytes the payload [data\[25:\]] is empty, so an array is
    returned only when the header announces a payload of length 0. *)
Theorem read_bf_entry_needs_24_bytes
    (db_pow dbinv : float -> float) (mem : nat -> nat -> nat -> complex)
    (data : list byte) (scaled : bool) :
  (length data <> 24%nat ->
   read_bf_entry db_pow dbinv mem data scaled = Raise StructError)
  /\ (length data = 24%nat ->
      exists hdr r,
        HEADER_STRUCT (drop 4 data) = Ok hdr
        /\ read_bf_entry db_pow dbinv mem data scaled = Ok r
        /\ (is_Some r <-> payload_length hdr = 0)).
Proof.
  split; intros Hlen.
  - unfold read_bf_entry.
    assert (length (slice data 4 25) <> 20%nat) as Hs
      by (rewrite length_slice by lia; lia).
    destruct (slice data 4 25) as [|b0 l] eqn:E; [done|].
    do 19 (destruct l as [|? l]; [done|]).
    destruct l as [|? l]; [done|]. done.
  - unfold read_bf_entry.
    assert (slice data 4 25 = drop 4 data) as ->.
    { unfold slice. apply take_ge. rewrite length_drop. lia. }
    destruct (HEADER_STRUCT_ok (drop 4 data)) as (hdr & Hh);
      [rewrite length_drop; lia|].
    rewrite Hh. cbn [bind].
    rewrite (drop_ge data 25) by lia.
    destruct (read_bfee_returns db_pow dbinv mem hdr []
                (perm_of (n_rx hdr) (antenna_sel hdr)) scaled) as (r & Hr & Hiff).
    exists hdr, r. split; [done|]. split; [done|]. exact Hiff.
Qed.

(** A packet of 100 zero bytes: [struct.error]. *)
Lemma read_bf_entry_needs_24_bytes_witness :
  read_bf_entry db_stand_in db_stand_in (stale_heap 0) (repeat x00 100) false
  = Raise StructError.
Proof.
  refine (proj1 (read_bf_entry_needs_24_bytes db_stand_in db_stand_in
                   (stale_heap 0) (repeat x00 100) false) _).
  vm_compute. discriminate.
Defined.

(** ** [read_file]: the loop as a whole *)

Section ScanAsAWhole.

Variable db_pow : float -> float.
Variable dbinv : float -> float.
Variable heap : Z -> nat -> nat -> nat -> complex.

Lemma scan_loop_more_fuel data scaled fuel : forall s r n,
  scan_loop db_pow dbinv heap fuel data scaled s = Some r ->
  scan_loop db_pow dbinv heap (fuel + n) data scaled s = Some r.
Proof.
  induction fuel as [|fuel IH]; intros s r n; cbn [scan_loop].
  - destruct (scan_guard data s) eqn:Hg; [done|].
    intros <-. destruct n; cbn [Nat.add scan_loop]; by rewrite Hg.
  - cbn [Nat.add scan_loop]. destruct (scan_guard data s); [|done].
    destruct (scan_body _ _ _ _ _ s); [|done]. apply IH.
Qed.

(** X7. The loop of [read_file] ends on every buffer: each pass moves the
    cursor on by the record's size plus two, at least two bytes even for a
    size field of 0, so as many passes as the buffer has bytes are never
    used up; and allowing more passes changes nothing. *)
Theorem read_file_terminates (data : list byte) (scaled : bool) (n : nat) :
  exists r,
    read_file db_pow dbinv heap data scaled = Some r
    /\ scan_loop db_pow dbinv heap (length data + n) data scaled scan_start
       = Some r.
Proof.
  destruct (scan_loop_fuel db_pow dbinv heap data scaled (length data)
              scan_start) as [r Hr]; cbn; try lia.
  exists r. split; [exact Hr|]. by apply scan_loop_more_fuel.
Qed.

Lemma length_relative_timestamps init ts :
  length (relative_timestamps init ts) = length ts.
Proof.
  revert init. induction ts as [|t ts IH]; intros init; [done|].
  cbn [relative_timestamps length]. by rewrite IH.
Qed.

Lemma scan_loop_counts data scaled fuel : forall s r,
  scan_loop db_pow dbinv heap fuel data scaled s = Some (Ok r) ->
  expected_frames r
  = expected_frames (ret_data s)
    + Z.of_nat (length (record_codes fuel data (cursor s)))
  /\ exists new,
      frames r = frames (ret_data s) ++ new
      /\ (length new
          <= length (List.filter (Z.eqb VALID_BEAMFORMING_MEASUREMENT)
                                 (record_codes fuel data (cursor s))))%nat.
Proof.
  induction fuel as [|fuel IH]; intros s r; cbn [scan_loop record_codes];
    fold (scan_guard data s); destruct (scan_guard data s) eqn:Hg; try done.
  - intros [= <-]. split; [cbn; lia|]. exists []. by rewrite app_nil_r.
  - unfold scan_body.
    destruct (SIZE_STRUCT _) as [size|] eqn:Es; [|done].
    destruct (CODE_STRUCT _) as [code|] eqn:Ec; [|done]. cbn [bind].
    destruct (Z.eqb_spec code VALID_BEAMFORMING_MEASUREMENT) as [->|Hne].
    + destruct (valid_block _ _ _ _ _ _ _ _ _) as [[init' ret']|] eqn:Ev;
        [|done].
      cbn [bind fst snd]. intros Hr. apply IH in Hr as (He & new2 & Hf & Hn).
      cbn [cursor ret_data expected_frames frames] in He, Hf, Hn.
      assert (exists new1, frames ret' = frames (ret_data s) ++ new1
                           /\ (length new1 <= 1)%nat
                           /\ expected_frames ret' = expected_frames (ret_data s))
        as (new1 & Hf1 & Hn1 & He1).
      { revert Ev. unfold valid_block.
        destruct (HEADER_STRUCT _) as [hdr|]; [|done]. cbn [bind].
        destruct (read_bfee _ _ _ _ _ _ _) as [[m|]|]; [| |done]; cbn [bind].
        - intros [= _ <-]. cbn. eexists [_]. split_and!; try done.
        - intros [= _ <-]. exists []. rewrite app_nil_r. split_and!; try done.
          cbn. lia. }
      split; [cbn [length]; lia|].
      exists (new1 ++ new2). rewrite Hf, Hf1, <- app_assoc. split; [done|].
      cbn [List.filter]. rewrite Z.eqb_refl. rewrite length_app. cbn [length].
      lia.
    + cbn [bind fst snd]. intros Hr. apply IH in Hr as (He & new2 & Hf & Hn).
      cbn [cursor ret_data expected_frames frames] in He, Hf, Hn.
      split; [cbn [length]; lia|].
      exists new2. split; [done|]. cbn [List.filter].
      by destruct (Z.eqb_spec VALID_BEAMFORMING_MEASUREMENT code); [congruence|].
  - intros [= <-]. split; [cbn; lia|]. exists []. by rewrite app_nil_r.
Qed.

(** X8. What [read_file] returns keeps count: there are as many timestamps
    as frames; [expected_frames] is the number of records the scan
    delimited, whatever their code; and the frames are at most as many as
    the records with the code 187. *)
Theorem read_file_counts (data : list byte) (scaled : bool) (r : csidata) :
  read_file db_pow dbinv heap data scaled = Some (Ok r) ->
  length (timestamps r) = length (frames r)
  /\ expected_frames r
     = Z.of_nat (length (record_codes (length data) data 0))
  /\ (length (frames r)
      <= length (List.filter (Z.eqb VALID_BEAMFORMING_MEASUREMENT)
                             (record_codes (length data) data 0)))%nat.
Proof.
  intros Hr. split.
  - rewrite (read_file_timestamps _ _ _ _ _ _ Hr).
    by rewrite length_relative_timestamps, length_map.
  - apply scan_loop_counts in Hr as (He & new & Hf & Hn).
    cbn [scan_start cursor ret_data expected_frames frames app] in He, Hf, Hn.
    split; [lia|]. by rewrite Hf.
Qed.

End ScanAsAWhole.

(** [one_dropped] holds two records with the code 187, one of them with a
    wrong length: two records counted, one frame, one timestamp. *)
Lemma read_file_counts_witness :
  exists r,
    read_file db_stand_in db_stand_in stale_heap one_dropped false
    = Some (Ok r)
    /\ length (timestamps r) = 1%nat /\ length (frames r) = 1%nat
    /\ expected_frames r = 2
    /\ length (List.filter (Z.eqb VALID_BEAMFORMING_MEASUREMENT)
                           (record_codes (length one_dropped) one_dropped 0))
       = 2%nat.
Proof.
  eexists. split; [vm_compute; reflexivity|].
  pose proof (read_file_counts db_stand_in db_stand_in stale_heap one_dropped
                false _ ltac:(vm_compute; reflexivity)) as (Ht & He & Hn).
  split; [rewrite Ht; reflexivity|]. split; [reflexivity|].
  split; [rewrite He; vm_compute; reflexivity|]. vm_compute. reflexivity.
Defined.

(** ** [read_file]: what it raises *)

Section ScanRaises.

Variable db_pow : float -> float.
Variable dbinv : float -> float.
Variable heap : Z -> nat -> nat -> nat -> complex.

Lemma SIZE_STRUCT_raises bs e : SIZE_STRUCT bs = Raise e -> e = StructError.
Proof. destruct bs as [|? [|? [|? ?]]]; cbn; congruence. Qed.

Lemma CODE_STRUCT_raises bs e : CODE_STRUCT bs = Raise e -> e = StructError.
Proof. destruct bs as [|? [|? ?]]; cbn; congruence. Qed.

Lemma HEADER_STRUCT_raises bs e : HEADER_STRUCT bs = Raise e -> e = StructError.
Proof.
  do 20 (destruct bs as [|? bs]; [cbn; congruence|]).
  destruct bs; cbn; congruence.
Qed.

Lemma scan_body_raises data scaled s e :
  scan_body db_pow dbinv heap data scaled s = Raise e -> e = StructError.
Proof.
  unfold scan_body.
  destruct (SIZE_STRUCT _) as [size|e1] eqn:Es;
    [|cbn; intros [= <-]; by apply SIZE_STRUCT_raises in Es].
  destruct (CODE_STRUCT _) as [code|e1] eqn:Ec;
    [|cbn; intros [= <-]; by apply CODE_STRUCT_raises in Ec].
  cbn [bind]. destruct (code =? VALID_BEAMFORMING_MEASUREMENT); [|done].
  unfold valid_block.
  destruct (HEADER_STRUCT _) as [hdr|e1] eqn:Eh;
    [|cbn; intros [= <-]; by apply HEADER_STRUCT_raises in Eh].
  cbn [bind].
  destruct (read_bfee_returns db_pow dbinv
              (heap (expected_frames (ret_data s))) hdr
              (drop 20 (slice data (cursor s + 3) (cursor s + 3 + size - 1)))
              (perm_of (n_rx hdr) (antenna_sel hdr)) scaled) as (r & -> & _).
  cbn [bind]. by destruct r.
Qed.

(** X9. The one exception that leaves the scan. A pass raises exactly when
    the record has the code 187 and a size field below 21, so that fewer
    than 20 bytes are there for the header, and then it raises
    [struct.error]; every other pass returns. Whatever the buffer,
    [read_file] raises nothing but [struct.error]. *)
Theorem scan_raises_only_on_short_record (data : list byte) (scaled : bool) :
  (forall s size code,
      0 <= cursor s -> scan_guard data s = true ->
      SIZE_STRUCT (slice data (cursor s) (cursor s + 2)) = Ok size ->
      CODE_STRUCT (slice data (cursor s + 2) (cursor s + 3)) = Ok code ->
      if (code =? VALID_BEAMFORMING_MEASUREMENT) && (size <? 21)
      then scan_body db_pow dbinv heap data scaled s = Raise StructError
      else exists s', scan_body db_pow dbinv heap data scaled s = Ok s')
  /\ (forall e,
        read_file db_pow dbinv heap data scaled = Some (Raise e) ->
        e = StructError).
Proof.
  split.
  - intros s size code H0 Hg Hsize Hcode.
    unfold scan_guard in Hg. apply Z.gtb_lt in Hg.
    pose proof (SIZE_STRUCT_range _ _ Hsize) as Hrange.
    unfold scan_body. rewrite Hsize, Hcode. cbn [bind].
    destruct (code =? VALID_BEAMFORMING_MEASUREMENT); cbn [andb];
      [|by eexists].
    unfold valid_block.
    destruct (Z.ltb_spec size 21) as [Hshort|Hlong].
    + rewrite HEADER_STRUCT_short; [done|].
      rewrite length_take, length_slice by lia. lia.
    + destruct (HEADER_STRUCT_ok
                  (take 20 (slice data (cursor s + 3) (cursor s + 3 + size - 1))))
        as (hdr & ->); [rewrite length_take, length_slice by lia; lia|].
      cbn [bind].
      destruct (read_bfee_returns db_pow dbinv
                  (heap (expected_frames (ret_data s))) hdr
                  (drop 20 (slice data (cursor s + 3) (cursor s + 3 + size - 1)))
                  (perm_of (n_rx hdr) (antenna_sel hdr)) scaled) as (r & -> & _).
      cbn [bind]. destruct r; by eexists.
  - unfold read_file. generalize scan_start.
    induction (length data) as [|fuel IH]; intros s e; cbn [scan_loop];
      destruct (scan_guard data s); try done.
    destruct (scan_body _ _ _ _ _ s) as [s'|e'] eqn:Eb; [apply IH|].
    intros [= <-]. by apply scan_body_raises in Eb.
Qed.

End ScanRaises.

(** The record of [short_record_file] has the code 187 and the size 5. *)
Lemma scan_raises_only_on_short_record_witness :
  scan_body db_stand_in db_stand_in stale_heap short_record_file false
            scan_start
  = Raise StructError.
Proof.
  exact (proj1 (scan_raises_only_on_short_record db_stand_in db_stand_in
                  stale_heap short_record_file false)
               scan_start 5 187 ltac:(cbn; lia) eq_refl eq_refl eq_refl).
Defined.

(** ** [read_file]: scaling and scanning *)

Section ScanScaled.

Variable db_pow : float -> float.
Variable dbinv : float -> float.
Variable heap : Z -> nat -> nat -> nat -> complex.

Lemma read_bfee_scaled mem hdr data perm :
  read_bfee db_pow dbinv mem hdr data perm true
  = match read_bfee db_pow dbinv mem hdr data perm false with
    | Ok (Some m) => Ok (Some (scale_csi_entry db_pow dbinv m hdr))
    | other => other
    end.
Proof.
  unfold read_bfee. destruct (negb _); [done|].
  by destruct (fill_csi mem hdr data perm).
Qed.

Lemma scan_body_scaled data s :
  scan_body db_pow dbinv heap data true (scale_scan db_pow dbinv s)
  = match scan_body db_pow dbinv heap data false s with
    | Ok s' => Ok (scale_scan db_pow dbinv s')
    | Raise e => Raise e
    end.
Proof.
  unfold scan_body. cbn [scale_scan cursor initial_timestamp ret_data].
  destruct (SIZE_STRUCT _) as [size|]; [|done].
  destruct (CODE_STRUCT _) as [code|]; [|done]. cbn [bind].
  destruct (code =? VALID_BEAMFORMING_MEASUREMENT); [|done].
  unfold valid_block. cbn [scale_frames expected_frames frames timestamps].
  destruct (HEADER_STRUCT _) as [hdr|]; [|done]. cbn [bind].
  rewrite read_bfee_scaled.
  destruct (read_bfee _ _ _ _ _ _ false) as [[m|]|]; [| |done]; cbn [bind].
  - cbn. unfold scale_scan, scale_frames. cbn. by rewrite map_app.
  - done.
Qed.

Lemma scan_loop_scaled data fuel : forall s,
  scan_loop db_pow dbinv heap fuel data true (scale_scan db_pow dbinv s)
  = match scan_loop db_pow dbinv heap fuel data false s with
    | Some (Ok r) => Some (Ok (scale_frames db_pow dbinv r))
    | other => other
    end.
Proof.
  induction fuel as [|fuel IH]; intros s; cbn [scan_loop];
    change (scan_guard data (scale_scan db_pow dbinv s))
      with (scan_guard data s);
    destruct (scan_guard data s); try done.
  rewrite scan_body_scaled.
  destruct (scan_body _ _ _ _ false s) as [s'|]; [apply IH|done].
Qed.

(** X10. Scaling commutes with the scan: [read_file] with [scaled] set
    returns the frames of the scan without scaling, each with its array
    passed through [scale_csi_entry] with its own header; the timestamps,
    the counter, and an exception if there is one, are the same. *)
Theorem read_file_scaled_is_scaled_read_file (data : list byte) :
  read_file db_pow dbinv heap data true
  = match read_file db_pow dbinv heap data false with
    | Some (Ok r) => Some (Ok (scale_frames db_pow dbinv r))
    | other => other
    end.
Proof. unfold read_file. by rewrite <- scan_loop_scaled. Qed.

End ScanScaled.

(** ** The header on the wire *)

Lemma z2b_b2z z b : z mod 256 = b2z b -> z2b z = b.
Proof.
  intros H. unfold z2b. rewrite H. unfold b2z.
  by rewrite N2Z.id, Byte.of_to_N.
Qed.

Lemma length_header_bytes hdr : length (header_bytes hdr) = 20%nat.
Proof. reflexivity. Qed.

Lemma HEADER_STRUCT_header_bytes hdr :
  header_in_range hdr -> HEADER_STRUCT (header_bytes hdr) = Ok hdr.
Proof.
  intros (Ht & Hc & Hr & Hnr & Hnt & Ha & Hb & Hcc & Hn & Hg & Hs & Hl & Hf).
  destruct hdr. cbn in *. unfold le32, le16, s8.
  rewrite !b2z_z2b, !Z.shiftr_div_pow2 by lia.
  change (2 ^ 0) with 1. change (2 ^ 8) with 256.
  change (2 ^ 16) with 65536. change (2 ^ 24) with 16777216.
  change (2 ^ 32) with 4294967296 in Ht.
  do 2 f_equal; try lia.
  destruct (Z.ltb_spec (noise0 mod 256) 128); lia.
Qed.

(** X11. A header written field by field, little-endian, is read back by
    [HEADER_STRUCT] as it was, for every header whose fields are within the
    ranges of their formats. *)
Theorem header_written_then_read (hdr : header) :
  header_in_range hdr -> HEADER_STRUCT (header_bytes hdr) = Ok hdr.
Proof. apply HEADER_STRUCT_header_bytes. Qed.

Lemma header_written_then_read_witness :
  HEADER_STRUCT (header_bytes (plain_header 1000000 5))
  = Ok (plain_header 1000000 5).
Proof.
  apply header_written_then_read. unfold header_in_range. cbn. lia.
Defined.

(** X12. Every header [HEADER_STRUCT] returns has its fields within the
    ranges of their formats, and written back it gives the 20 bytes it was
    read from: no two byte strings are read as the same header. *)
Theorem header_read_then_written (bs : list byte) (hdr : header) :
  HEADER_STRUCT bs = Ok hdr ->
  header_in_range hdr /\ header_bytes hdr = bs.
Proof.
  do 20 (destruct bs as [|? bs]; [done|]). destruct bs; [|done].
  intros [= <-].
  repeat match goal with b : byte |- _ =>
    pose proof (b2z_range b); generalize dependent b end.
  intros. split.
  - unfold header_in_range, le32, le16, s8. cbn.
    change (2 ^ 32) with 4294967296.
    repeat match goal with |- context [?a <? ?b] =>
      destruct (Z.ltb_spec a b) end; lia.
  - unfold header_bytes, le_bytes. cbn [map seq app timestamp_low bfee_count
      reserved n_rx n_tx rssi_a rssi_b rssi_c noise agc antenna_sel
      payload_length rate].
    unfold le32, le16, s8.
    repeat f_equal; apply z2b_b2z; rewrite ?Z.shiftr_div_pow2 by lia;
      cbn [Z.mul Z.of_nat Pos.of_succ_nat Pos.succ Pos.mul];
      change (2 ^ 0) with 1; change (2 ^ 8) with 256;
      change (2 ^ 16) with 65536; change (2 ^ 24) with 16777216;
      repeat match goal with |- context [?a <? ?b] =>
        destruct (Z.ltb_spec a b) end; lia.
Qed.

(** Twenty bytes 0x01. *)
Lemma header_read_then_written_witness :
  header_in_range
    {| timestamp_low := 16843009; bfee_count := 257; reserved := 257;
       n_rx := 1; n_tx := 1; rssi_a := 1; rssi_b := 1; rssi_c := 1;
       noise := 1; agc := 1; antenna_sel := 1;
       payload_length := 257; rate := 257 |}
  /\ header_bytes
       {| timestamp_low := 16843009; bfee_count := 257; reserved := 257;
          n_rx := 1; n_tx := 1; rssi_a := 1; rssi_b := 1; rssi_c := 1;
          noise := 1; agc := 1; antenna_sel := 1;
          payload_length := 257; rate := 257 |}
     = repeat x01 20.
Proof.
  apply (header_read_then_written (repeat x01 20)). reflexivity.
Defined.

(** ** The noise floor in the scaling *)

(** X13. In the scaling the noise -127, which stands for an undefined noise
    floor, is taken for -92: two headers that differ in this one field only
    give the same scaled array. *)
Theorem undefined_noise_is_minus_92
    (db_pow dbinv : float -> float) (csi : matrix) (hdr : header) :
  scale_csi_entry db_pow dbinv csi (with_noise hdr (-127))
  = scale_csi_entry db_pow dbinv csi (with_noise hdr (-92)).
Proof. reflexivity. Qed.

(** ** The permutation *)

(** X15. Whatever [n_rx] and [antenna_sel] are, the permutation has three
    entries and each of them is one of 0, 1, 2 and 3: an entry is never
    negative, and only the value 3 can fail to be a row of an array with
    three receive antennas. *)
Theorem perm_of_entries (n_rx antenna_sel : Z) :
  length (perm_of n_rx antenna_sel) = 3%nat
  /\ Forall (fun p => 0 <= p <= 3) (perm_of n_rx antenna_sel).
Proof.
  assert (forall x, 0 <= Z.land x 3 <= 3) as Hland.
  { intros x. pose proof (Z.land_ones x 2 ltac:(lia)) as H.
    change (Z.ones 2) with 3 in H. change (2 ^ 2) with 4 in H.
    rewrite H. pose proof (Z.mod_pos_bound x 4 ltac:(lia)). lia. }
  unfold perm_of. destruct (_ =? n_rx); (split; [done|]).
  - repeat constructor; apply Hland.
  - repeat constructor; lia.
Qed.

(** ** A record on the wire *)

Lemma slice_after pre l a b :
  0 <= a ->
  slice (pre ++ l) (Z.of_nat (length pre) + a) (Z.of_nat (length pre) + b)
  = slice l a b.
Proof.
  intros Ha. unfold slice.
  replace (Z.of_nat (length pre) + b - (Z.of_nat (length pre) + a))
    with (b - a) by lia.
  replace (Z.to_nat (Z.of_nat (length pre) + a))
    with (length pre + Z.to_nat a)%nat by lia.
  by rewrite drop_app_add.
Qed.

Lemma slice_after_0 pre l b :
  slice (pre ++ l) (Z.of_nat (length pre)) (Z.of_nat (length pre) + b)
  = slice l 0 b.
Proof.
  rewrite <- (slice_after pre l 0 b) by lia. by rewrite Z.add_0_r.
Qed.

Section RecordOnTheWire.

Variable db_pow : float -> float.
Variable dbinv : float -> float.
Variable heap : Z -> nat -> nat -> nat -> complex.

Lemma scan_body_record_bytes
    (pre : list byte) (code : Z) (hdr : header) (payload rest : list byte)
    (scaled : bool) (s : scan) :
  header_in_range hdr -> 0 <= code < 256 ->
  Z.of_nat (length payload) + 21 < 65536 ->
  cursor s = Z.of_nat (length pre) ->
  scan_guard (pre ++ record_bytes code hdr payload ++ rest) s = true ->
  exists s',
    scan_body db_pow dbinv heap (pre ++ record_bytes code hdr payload ++ rest)
              scaled s = Ok s'
    /\ cursor s' = Z.of_nat (length (pre ++ record_bytes code hdr payload))
    /\ expected_frames (ret_data s') = expected_frames (ret_data s) + 1
    /\ if (code =? VALID_BEAMFORMING_MEASUREMENT)
          && (payload_length hdr =? Z.of_nat (length payload))
       then exists m,
           read_bfee db_pow dbinv (heap (expected_frames (ret_data s))) hdr
                     payload (perm_of (n_rx hdr) (antenna_sel hdr)) scaled
           = Ok (Some m)
           /\ frames (ret_data s')
              = frames (ret_data s)
                ++ [{| frame_header := hdr; frame_csi := m |}]
       else frames (ret_data s') = frames (ret_data s).
Proof.
  intros Hhdr Hcode Hlen Hcur _.
  set (size := Z.of_nat (length (header_bytes hdr ++ payload)) + 1).
  assert (size = 21 + Z.of_nat (length payload)) as Hsize.
  { unfold size. rewrite length_app, length_header_bytes. lia. }
  assert (record_bytes code hdr payload ++ rest
          = z2b (Z.shiftr size 8) :: z2b size :: z2b code
            :: (header_bytes hdr ++ payload) ++ rest) as Hrec by done.
  assert (Z.of_nat (length (pre ++ record_bytes code hdr payload))
          = Z.of_nat (length pre) + 3 + (size - 1)) as ->.
  { unfold record_bytes. cbv zeta.
    rewrite !length_app, length_header_bytes. cbn [length]. lia. }
  unfold scan_body. rewrite Hcur, Hrec.
  rewrite slice_after_0, slice_after by lia.
  assert (slice (z2b (Z.shiftr size 8) :: z2b size :: z2b code
                 :: (header_bytes hdr ++ payload) ++ rest) 0 2
          = [z2b (Z.shiftr size 8); z2b size]) as -> by done.
  assert (slice (z2b (Z.shiftr size 8) :: z2b size :: z2b code
                 :: (header_bytes hdr ++ payload) ++ rest) 2 3
          = [z2b code]) as -> by done.
  cbn [SIZE_STRUCT CODE_STRUCT bind].
  assert (256 * b2z (z2b (Z.shiftr size 8)) + b2z (z2b size) = size) as ->.
  { rewrite !b2z_z2b, Z.shiftr_div_pow2 by lia. change (2 ^ 8) with 256. lia. }
  assert (b2z (z2b code) = code) as -> by (rewrite b2z_z2b; lia).
  assert (forall init ret,
            valid_block db_pow dbinv heap
              (pre ++ z2b (Z.shiftr size 8) :: z2b size :: z2b code
                   :: (header_bytes hdr ++ payload) ++ rest)
              scaled (Z.of_nat (length pre) + 3) size init ret
            = (do csi_matrix <-
                 read_bfee db_pow dbinv (heap (expected_frames ret)) hdr payload
                           (perm_of (n_rx hdr) (antenna_sel hdr)) scaled;
               match csi_matrix with
               | Some m =>
                   let ts := seconds hdr in
                   let init' := if PrimFloat.eqb init 0 then ts else init in
                   Ok (init',
                       {| frames :=
                            frames ret
                            ++ [{| frame_header := hdr; frame_csi := m |}];
                          timestamps := timestamps ret ++ [(ts - init')%float];
                          expected_frames := expected_frames ret |})
               | None => Ok (init, ret)
               end)) as Hvalid.
  { intros init ret. unfold valid_block.
    replace (Z.of_nat (length pre) + 3 + size - 1)
      with (Z.of_nat (length pre) + (3 + size - 1)) by lia.
    rewrite slice_after by lia.
    assert (slice (z2b (Z.shiftr size 8) :: z2b size :: z2b code
                   :: (header_bytes hdr ++ payload) ++ rest) 3 (3 + size - 1)
            = header_bytes hdr ++ payload) as ->.
    { unfold slice. change (Z.to_nat 3) with 3%nat. cbn [drop].
      apply take_app_length'. unfold size. lia. }
    rewrite take_app_length', drop_app_length' by done.
    by rewrite HEADER_STRUCT_header_bytes. }
  rewrite Hvalid.
  destruct (Z.eqb_spec code VALID_BEAMFORMING_MEASUREMENT) as [->|Hne];
    cbn [andb bind].
  - destruct (Z.eqb_spec (payload_length hdr) (Z.of_nat (length payload)))
      as [Heq|Hneq].
    + destruct (read_bfee_match db_pow dbinv
                  (heap (expected_frames (ret_data s))) hdr payload
                  (perm_of (n_rx hdr) (antenna_sel hdr)) scaled Heq)
        as (csi & _ & Hr).
      rewrite Hr. cbn [bind]. cbv zeta. cbn [fst snd].
      eexists. split; [reflexivity|].
      cbn [cursor ret_data expected_frames frames].
      split; [done|]. split; [done|]. eexists. by split.
    + rewrite read_bfee_mismatch by done. cbn [bind fst snd].
      eexists. split; [reflexivity|].
      by cbn [cursor ret_data expected_frames frames].
  - eexists. split; [reflexivity|].
    by cbn [cursor ret_data expected_frames frames fst snd].
Qed.

(** X14. A record written as [record_bytes] writes it (size, code, header,
    payload) anywhere in a buffer is read by one pass of the scan as it was
    written: the pass returns with the cursor just after the record and the
    record counted; when the code is 187 and the header announces the length
    of the payload, the frame appended has this very header and the array
    [read_bfee] decodes from this very payload; otherwise no frame is
    added. *)
Theorem record_written_then_scanned
    (pre : list byte) (code : Z) (hdr : header) (payload rest : list byte)
    (scaled : bool) (s : scan) :
  header_in_range hdr -> 0 <= code < 256 ->
  Z.of_nat (length payload) + 21 < 65536 ->
  cursor s = Z.of_nat (length pre) ->
  scan_guard (pre ++ record_bytes code hdr payload ++ rest) s = true ->
  exists s',
    scan_body db_pow dbinv heap (pre ++ record_bytes code hdr payload ++ rest)
              scaled s = Ok s'
    /\ cursor s' = Z.of_nat (length (pre ++ record_bytes code hdr payload))
    /\ expected_frames (ret_data s') = expected_frames (ret_data s) + 1
    /\ if (code =? VALID_BEAMFORMING_MEASUREMENT)
          && (payload_length hdr =? Z.of_nat (length payload))
       then exists m,
           read_bfee db_pow dbinv (heap (expected_frames (ret_data s))) hdr
                     payload (perm_of (n_rx hdr) (antenna_sel hdr)) scaled
           = Ok (Some m)
           /\ frames (ret_data s')
              = frames (ret_data s)
                ++ [{| frame_header := hdr; frame_csi := m |}]
       else frames (ret_data s') = frames (ret_data s).
Proof. apply scan_body_record_bytes. Qed.

End RecordOnTheWire.

(** The first record of [two_frames], read from the start of the file. *)
Lemma record_written_then_scanned_witness :
  exists s',
    scan_body db_stand_in db_stand_in stale_heap
              ([] ++ record_bytes 187 (plain_header 1000000 0) []
                  ++ (record_bytes 187 (plain_header 3000000 0) []
                      ++ repeat x00 80))
              false scan_start = Ok s'
    /\ cursor s' = 23
    /\ expected_frames (ret_data s') = 1
    /\ exists m,
        read_bfee db_stand_in db_stand_in (stale_heap 0)
                  (plain_header 1000000 0) [] (perm_of 1 36) false
        = Ok (Some m)
        /\ frames (ret_data s')
           = [{| frame_header := plain_header 1000000 0; frame_csi := m |}].
Proof.
  apply (record_written_then_scanned db_stand_in db_stand_in stale_heap []
           187 (plain_header 1000000 0) []
           (record_bytes 187 (plain_header 3000000 0) [] ++ repeat x00 80)
           false scan_start).
  - unfold header_in_range. cbn. lia.
  - lia.
  - cbn. lia.
  - reflexivity.
  - reflexivity.
Defined.

(** ** A whole capture file *)

Section CaptureFile.

Variable db_pow : float -> float.
Variable dbinv : float -> float.
Variable heap : Z -> nat -> nat -> nat -> complex.

Lemma length_wire_bytes rec :
  length (wire_bytes rec) = (23 + length rec.2)%nat.
Proof.
  unfold wire_bytes, record_bytes. cbv zeta.
  rewrite !length_app, length_header_bytes. cbn [length]. lia.
Qed.

Lemma scan_loop_capture scaled tail :
  (78 <= length tail <= 100)%nat ->
  forall records pre s fuel,
    Forall wire_record_ok records ->
    cursor s = Z.of_nat (length pre) ->
    (length records <= fuel)%nat ->
    exists r,
      scan_loop db_pow dbinv heap fuel (pre ++ capture records tail) scaled s
      = Some (Ok r)
      /\ map frame_header (frames r)
         = map frame_header (frames (ret_data s))
           ++ map (fun rec : wire_record => rec.1.2) (List.filter emits records)
      /\ expected_frames r
         = expected_frames (ret_data s) + Z.of_nat (length records).
Proof.
  intros Htail. induction records as [|rec records IH];
    intros pre s fuel Hok Hcur Hfuel.
  - exists (ret_data s). unfold capture. cbn [flat_map app List.filter map].
    rewrite app_nil_r, Z.add_0_r. split; [|done].
    assert (scan_guard (pre ++ tail) s = false) as Hg.
    { unfold scan_guard. rewrite Hcur, length_app.
      destruct (Z.gtb_spec (Z.of_nat (length pre + length tail)
                            - Z.of_nat (length pre)) 100); [lia|done]. }
    destruct fuel; cbn [scan_loop]; by rewrite Hg.
  - apply Forall_cons in Hok as [(Hhdr & Hcode & Hlen) Hok].
    destruct fuel as [|fuel]; [cbn in Hfuel; lia|].
    assert (pre ++ capture (rec :: records) tail
            = pre ++ record_bytes rec.1.1 rec.1.2 rec.2
                  ++ capture records tail) as Hdata.
    { unfold capture. cbn [flat_map]. unfold wire_bytes at 1.
      by rewrite <- app_assoc. }
    assert (scan_guard (pre ++ capture (rec :: records) tail) s = true) as Hg.
    { unfold scan_guard. rewrite Hcur. unfold capture. cbn [flat_map].
      rewrite !length_app, length_wire_bytes. apply Z.gtb_lt. lia. }
    cbn [scan_loop]. rewrite Hg. rewrite Hdata in Hg |- *.
    destruct (scan_body_record_bytes db_pow dbinv heap pre rec.1.1 rec.1.2
                rec.2 (capture records tail) scaled s Hhdr Hcode Hlen Hcur Hg)
      as (s' & -> & Hcur' & He & Hframes).
    destruct (IH (pre ++ record_bytes rec.1.1 rec.1.2 rec.2) s' fuel Hok Hcur')
      as (r & Hr & Hf & Hn); [cbn in Hfuel; lia|].
    exists r. rewrite <- app_assoc in Hr. split; [exact Hr|].
    split.
    + rewrite Hf. cbn [List.filter]. unfold emits at 2.
      destruct ((rec.1.1 =? VALID_BEAMFORMING_MEASUREMENT)
                && (payload_length rec.1.2 =? Z.of_nat (length rec.2))).
      * destruct Hframes as (m & _ & ->).
        rewrite map_app. cbn [map frame_header]. by rewrite <- app_assoc.
      * by rewrite Hframes.
    + rewrite Hn, He. cbn [length]. lia.
Qed.

(** X16. A capture file read back. For a file made of records written one
    after the other and followed by 78 to 100 more bytes (the loop reads a
    record only while more than 100 bytes remain, and a record has at least
    23), [read_file] returns; the headers of its frames are, in the order of
    the file, the headers of the records that have the code 187 and the
    payload length they announce; and [expected_frames] is the number of all
    records. The bytes after the last record are not read, whatever they
    hold. *)
Theorem capture_read_back
    (records : list wire_record) (tail : list byte) (scaled : bool) :
  Forall wire_record_ok records ->
  (78 <= length tail <= 100)%nat ->
  exists r,
    read_file db_pow dbinv heap (capture records tail) scaled = Some (Ok r)
    /\ map frame_header (frames r)
       = map (fun rec : wire_record => rec.1.2) (List.filter emits records)
    /\ expected_frames r = Z.of_nat (length records).
Proof.
  intros Hok Htail. unfold read_file.
  destruct (scan_loop_capture scaled tail Htail records [] scan_start
              (length (capture records tail)) Hok eq_refl)
    as (r & Hr & Hf & Hn).
  - unfold capture. rewrite length_app.
    assert (length records <= length (flat_map wire_bytes records))%nat; [|lia].
    clear. induction records as [|rec records IH]; [done|].
    cbn [flat_map length]. rewrite length_app, length_wire_bytes. lia.
  - exists r. split; [exact Hr|]. split; [exact Hf|].
    rewrite Hn. cbn. lia.
Qed.

End CaptureFile.

(** The file [one_dropped]: a record that announces 5 payload bytes and has
    none, a sound record, and 80 bytes. One frame, two records counted. *)
Lemma capture_read_back_witness :
  exists r,
    read_file db_stand_in db_stand_in stale_heap
              (capture [(187, plain_header 1000000 5, []);
                        (187, plain_header 3000000 0, [])]
                       (repeat x00 80)) false
    = Some (Ok r)
    /\ map frame_header (frames r) = [plain_header 3000000 0]
    /\ expected_frames r = 2.
Proof.
  apply (capture_read_back db_stand_in db_stand_in stale_heap
           [(187, plain_header 1000000 5, []);
            (187, plain_header 3000000 0, [])]
           (repeat x00 80) false).
  - repeat constructor; cbn; lia.
  - cbn. lia.
Defined.

(** ** Payloads too short for a sample *)

(** X17. A payload of at most two bytes is accepted when the header
    announces its length, and nothing is extracted from it: extraction
    needs three bytes, so [read_bfee] returns the array as the memory from
    [np.empty] held it, every cell untouched. *)
Theorem tiny_payload_decodes_nothing
    (db_pow dbinv : float -> float) (mem : nat -> nat -> nat -> complex)
    (hdr : header) (data : list byte) (perm : list Z) :
  payload_length hdr = Z.of_nat (length data) ->
  (length data <= 2)%nat ->
  read_bfee db_pow dbinv mem hdr data perm false
  = Ok (Some (np_empty mem 30 (Z.to_nat (n_rx hdr)) (Z.to_nat (n_tx hdr)))).
Proof.
  intros Hlen Hshort. unfold read_bfee. rewrite Hlen, Z.eqb_refl. cbn [negb].
  destruct (fill_csi_walked mem hdr data perm) as (csi & -> & Hd & Hget).
  cbn [bind]. do 2 f_equal.
  set (N := Z.to_nat (n_rx hdr)) in *. set (M := Z.to_nat (n_tx hdr)) in *.
  pose proof (np_empty_dims mem 30 N M) as Hd0.
  assert (forall i r k, get3 csi i r k = get3 (np_empty mem 30 N M) i r k)
    as Hsame.
  { intros i r k.
    destruct (Nat.lt_ge_cases i 30) as [Hi|Hi];
      [destruct (Nat.lt_ge_cases r N) as [Hr|Hr];
       [destruct (Nat.lt_ge_cases k M) as [Hk|Hk]|]|].
    - rewrite Hget, get3_np_empty by done. f_equal. unfold walked.
      destruct (last_writer _ _ _ _ _ _ _ _ _) as [j|] eqn:E; [|done].
      apply last_writer_Some in E as [_ W]. unfold writes in W.
      apply andb_prop in W as [_ W]. unfold in_reach in W.
      apply Z.ltb_lt in W. pose proof (pos_nonneg N M i j k). lia.
    - destruct (dims_lookup _ _ _ _ i r Hd Hi Hr)
        as (p1 & r1 & Hp1 & Hr1 & _ & Hl1 & _).
      destruct (dims_lookup _ _ _ _ i r Hd0 Hi Hr)
        as (p2 & r2 & Hp2 & Hr2 & _ & Hl2 & _).
      unfold get3. rewrite Hp1, Hr1, Hp2, Hr2.
      by rewrite !lookup_ge_None_2 by lia.
    - destruct Hd as [Hl Hall], Hd0 as [Hl0 Hall0]. unfold get3.
      destruct (lookup_lt_is_Some_2 csi i) as [p1 Hp1]; [lia|].
      destruct (lookup_lt_is_Some_2 (np_empty mem 30 N M) i) as [p2 Hp2]; [lia|].
      rewrite Hp1, Hp2.
      destruct (proj1 (Forall_lookup _ _) Hall i p1 Hp1) as [Hlp1 _].
      destruct (proj1 (Forall_lookup _ _) Hall0 i p2 Hp2) as [Hlp2 _].
      by rewrite !lookup_ge_None_2 by lia.
    - destruct Hd as [Hl _], Hd0 as [Hl0 _]. unfold get3.
      by rewrite !lookup_ge_None_2 by lia. }
  apply list_eq. intros i. pose proof (Hsame i) as Hi.
  unfold get3 in Hi.
  destruct (csi !! i) as [p1|] eqn:E1,
           (np_empty mem 30 N M !! i) as [p2|] eqn:E2.
  - f_equal. apply list_eq. intros r. specialize (Hi r).
    destruct (p1 !! r) as [r1|] eqn:F1, (p2 !! r) as [r2|] eqn:F2.
    + f_equal. apply list_eq. intros k. apply Hi.
    + exfalso. apply lookup_lt_Some in F1. apply lookup_ge_None in F2.
      destruct Hd as [_ Hall], Hd0 as [_ Hall0].
      destruct (proj1 (Forall_lookup _ _) Hall i p1 E1) as [Hlp1 _].
      destruct (proj1 (Forall_lookup _ _) Hall0 i p2 E2) as [Hlp2 _]. lia.
    + exfalso. apply lookup_lt_Some in F2. apply lookup_ge_None in F1.
      destruct Hd as [_ Hall], Hd0 as [_ Hall0].
      destruct (proj1 (Forall_lookup _ _) Hall i p1 E1) as [Hlp1 _].
      destruct (proj1 (Forall_lookup _ _) Hall0 i p2 E2) as [Hlp2 _]. lia.
    + done.
  - exfalso. apply lookup_lt_Some in E1. apply lookup_ge_None in E2.
    destruct Hd as [Hl _], Hd0 as [Hl0 _]. lia.
  - exfalso. apply lookup_lt_Some in E2. apply lookup_ge_None in E1.
    destruct Hd as [Hl _], Hd0 as [Hl0 _]. lia.
  - done.
Qed.

(** A record with no payload at all. *)
Lemma tiny_payload_decodes_nothing_witness :
  read_bfee db_stand_in db_stand_in (stale_heap 0) (plain_header 0 0) []
            [0; 1; 2] false
  = Ok (Some (np_empty (stale_heap 0) 30 1 1)).
Proof.
  apply (tiny_payload_decodes_nothing db_stand_in db_stand_in (stale_heap 0)
           (plain_header 0 0) [] [0; 1; 2]).
  - reflexivity.
  - cbn. lia.
Defined.
